(** * fierdat: the DigAccess settings-resolution and data-assembly layer

    A shallow embedding of [DataAccess_Class.py] (class [DigAccess]) and
    the properties of its read-plan resolver, its time/frequency
    converters, its lazy data assembler and its channel accessor.

    Python objects that the class mutates or shares (the settings
    dictionaries, the session object) live in an explicit store that is
    threaded through a state-and-exception monad.  The module is read
    as Python 3 runs it: [/] on two integers is true division.  The
    float operations of the converters are kept behind the class
    [PyFloat], which IEEE binary64, the arithmetic of the interpreter
    and of numpy, instantiates. *)

From Stdlib Require Import ZArith QArith Qround Floats String List Lia.
From stdpp Require Import base gmap strings list.

#[local] Set Warnings "-register-all".

Local Open Scope string_scope.
Local Open Scope list_scope.
Local Open Scope Z_scope.

(** ** Exceptions *)

(** Arguments spliced into a message by [str.format]. *)
Inductive fmt_arg : Type :=
| FKey (k : string)
| FKeys (ks : list string)
| FChan (c : Z)
| FChans (cs : list Z)
| FNames (ns : list string).

(** ["template".format(args...)]; a plain string has no arguments. *)
Record message : Type := Message { template : string; args : list fmt_arg }.

Definition plain (s : string) : message := Message s [].

(** [s] between double quotes (character 34). *)
Definition quoted (s : string) : string :=
  let q := Ascii.Ascii false true false false false true false false in
  String q (s +:+ String q EmptyString).

(** The exceptions the module raises itself ([DigReadSettingError],
    [KeyError]) and the built-in ones its operations can raise. *)
Inductive exn : Type :=
| DigReadSettingError (m : message)
| KeyError (m : message)
| AttributeError
| TypeError
| ValueError
| MemoryError
| ZeroDivisionError
| OverflowError
| UnboundLocalError (name : string).

(** ** Results and the state-and-exception monad *)

Definition result (A : Type) : Type := exn + A.

Definition ok {A} (a : A) : result A := inr a.
Definition err {A} (e : exn) : result A := inl e.

Definition bindR {A B} (r : result A) (k : A → result B) : result B :=
  match r with
  | inl e => inl e
  | inr a => k a
  end.

Notation "'let?' x := e 'in' k" := (bindR e (fun x => k))
  (at level 10, x pattern, e at level 100, k at level 200).

(** A computation over a mutable state [S]: the state survives an
    exception, as the attributes of a Python object do. *)
Definition M (S A : Type) : Type := S → result A * S.

Definition ret {S A} (a : A) : M S A := fun s => (inr a, s).
Definition raise {S A} (e : exn) : M S A := fun s => (inl e, s).
Definition bindM {S A B} (m : M S A) (k : A → M S B) : M S B :=
  fun s => match m s with
           | (inl e, s') => (inl e, s')
           | (inr a, s') => k a s'
           end.
Definition lift {S A} (r : result A) : M S A := fun s => (r, s).
Definition get {S} : M S S := fun s => (inr s, s).
Definition modify {S} (f : S → S) : M S unit := fun s => (inr tt, f s).

(** [try: m except e if handles e: h e] *)
Definition try_except {S A} (m : M S A) (h : exn → option (M S A)) : M S A :=
  fun s => match m s with
           | (inl e, s') => match h e with
                            | Some k => k s'
                            | None => (inl e, s')
                            end
           | r => r
           end.

Notation "'let*' x := e 'in' k" := (bindM e (fun x => k))
  (at level 10, x pattern, e at level 100, k at level 200).
Notation "e1 ;;; e2" := (bindM e1 (fun _ => e2))
  (at level 100, e2 at level 200, right associativity).

(** ** Python floats *)

(** The float operations [DigAccess] uses.  [float_of_int] is the
    coercion Python applies to an [int] operand of a true division with
    a float; [float_div] is [x / y] on floats; [int_ceil x] is
    [int(np.ceil(x))] and [int_floor x] is [int(np.floor(x))]. *)
Class PyFloat (num : Type) : Type := {
  float_of_int : Z → result num;
  float_div : num → num → result num;
  int_ceil : num → result Z;
  int_floor : num → result Z
}.

(** *** IEEE binary64, as CPython and numpy compute *)

Module Binary64.

(** The integer part of a finite binary64 number, rounded up
    ([up = true]) or down. *)
Definition sf_round (up : bool) (x : spec_float) : result Z :=
  match x with
  | S754_zero _ => ok 0
  | S754_finite s m e =>
      let a := if s then Z.neg m else Z.pos m in
      if 0 <=? e then ok (a * 2 ^ e)
      else if up then ok (- ((- a) / 2 ^ (- e)))
      else ok (a / 2 ^ (- e))
  | S754_infinity _ => err OverflowError
  | S754_nan => err ValueError
  end.

(** [float(n)]: round to nearest even, [OverflowError] past the
    largest finite double. *)
Definition of_int (n : Z) : result float :=
  match binary_normalize prec emax n 0 false with
  | S754_infinity _ => err OverflowError
  | x => ok (SF2Prim x)
  end.

(** Python float division: dividing by [0.0] or [-0.0] raises. *)
Definition div (x y : float) : result float :=
  if PrimFloat.eqb y PrimFloat.zero then err ZeroDivisionError
  else ok (PrimFloat.div x y).

#[export] Instance binary64 : PyFloat float := {|
  float_of_int := of_int;
  float_div := div;
  int_ceil x := sf_round true (Prim2SF x);
  int_floor x := sf_round false (Prim2SF x)
|}.

(** An integer as an unrounded binary number. *)
Definition raw_int (n : Z) : spec_float :=
  match n with
  | 0 => S754_zero false
  | Z.pos m => S754_finite false m 0
  | Z.neg m => S754_finite true m 0
  end.

(** [a / b] on two [int]s (Python 3): the quotient rounded once to
    nearest even; [ZeroDivisionError] for [b = 0], [OverflowError] when
    the rounded quotient is past the largest finite double. *)
Definition truediv (a b : Z) : result float :=
  if b =? 0 then err ZeroDivisionError
  else match SFdiv prec emax (raw_int a) (raw_int b) with
       | S754_infinity _ => err OverflowError
       | x => ok (SF2Prim x)
       end.

(** The cast of a 64-bit integer sample to [float64]: round to nearest
    even. *)
Definition of_int64 (n : Z) : float := SF2Prim (binary_normalize prec emax n 0 false).

End Binary64.

Export Binary64.

(** ** Python values and objects *)

(** References to dictionary objects. *)
Definition loc : Type := nat.

(** The values a settings dictionary can hold.  A dictionary is held by
    reference ([VDict]); every other value is immutable here. *)
Inductive value (num : Type) : Type :=
| VNone
| VInt (n : Z)
| VFloat (x : num)
| VStr (s : string)
| VList (l : list (value num))
| VDict (l : loc).

Arguments VNone {num}.
Arguments VInt {num} n.
Arguments VFloat {num} x.
Arguments VStr {num} s.
Arguments VList {num} l.
Arguments VDict {num} l.

(** The state of a computation: the object it mutates and what it has
    printed so far. *)
Record st (S : Type) : Type := St { obj : S; stdout : list message }.

Arguments St {S} obj stdout.
Arguments obj {S} s.
Arguments stdout {S} s.

Definition get_obj {S} : M (st S) S := fun s => (inr (obj s), s).
Definition modify_obj {S} (f : S → S) : M (st S) unit :=
  fun s => (inr tt, St (f (obj s)) (stdout s)).
Definition print {S} (m : message) : M (st S) unit :=
  fun s => (inr tt, St (obj s) (stdout s ++ [m])).

Fixpoint for_each {S A} (l : list A) (body : A → M S unit) : M S unit :=
  match l with
  | [] => ret tt
  | x :: r => body x ;;; for_each r body
  end.

(** The facts [DigAccess] reads off the file header ([DigHeader] is a
    collaborator outside this module). *)
Record DigHeader (num : Type) : Type := {
  channel_list : list Z;
  channel_names : list string;
  data_length_reads : Z;
  file_frequency : num;
  output_frequency : num
}.

Arguments channel_list {num} d.
Arguments channel_names {num} d.
Arguments data_length_reads {num} d.
Arguments file_frequency {num} d.
Arguments output_frequency {num} d.

(** A settings dictionary, and the heap of dictionary objects.  The keys
    of a settings dictionary are strings, as the known keys are; any
    other key would only be one more unknown key. *)
Abbreviation dict num := (gmap string (value num)).
Abbreviation heap num := (gmap loc (gmap string (value num))).

Section Resolver.

Context {num : Type} `{!PyFloat num}.

Abbreviation value := (value num).
Abbreviation DigHeader := (DigHeader num).

Abbreviation dict := (dict num).
Abbreviation heap := (heap num).

(** The dictionary at a reference.  Python has no dangling references;
    a location outside the heap reads as the empty dictionary. *)
Definition deref (h : heap) (l : loc) : dict := default ∅ (h !! l).

(** [dict(d)]: a shallow copy in a fresh object. *)
Definition dict_copy (l : loc) : M (st heap) loc :=
  fun s =>
    let h := obj s in
    let l' := fresh (dom h) in
    (inr l', St (<[l' := deref h l]> h) (stdout s)).

(** [d[k]] *)
Definition dict_getitem (l : loc) (k : string) : M (st heap) value :=
  fun s => match deref (obj s) l !! k with
           | Some v => (inr v, s)
           | None => (inl (KeyError (Message "{}" [FKey k])), s)
           end.

(** [d[k] = v] *)
Definition dict_setitem (l : loc) (k : string) (v : value) : M (st heap) unit :=
  modify_obj (fun h => <[l := <[k := v]> (deref h l)]> h).

(** [d.keys()] *)
Definition dict_keys (l : loc) : M (st heap) (gset string) :=
  fun s => (inr (dom (deref (obj s) l)), s).

(** *** The time/frequency converters *)

(** The float a value contributes to a true division with a float
    operand; anything but a number is a [TypeError]. *)
Definition as_float (v : value) : result num :=
  match v with
  | VInt n => float_of_int n
  | VFloat x => ok x
  | _ => err TypeError
  end.

(** [convert_time_to_read] (lines 128-138): [1/file_frequency] is the
    period, [np.ceil(time/period)] the read, [int(...)] its integer. *)
Definition convert_time_to_read (header : DigHeader) (time : value) : result Z :=
  let? one := float_of_int 1 in
  let? period_between_reads := float_div one (file_frequency header) in
  let? t := as_float time in
  let? cycles_to_time := float_div t period_between_reads in
  int_ceil cycles_to_time.

(** [convert_max_frequency_to_downsample] (lines 140-148):
    [int(np.floor(file_frequency/max_f))]. *)
Definition convert_max_frequency_to_downsample (header : DigHeader) (max_f : value)
  : result Z :=
  let file_frequency := file_frequency header in
  let? m := as_float max_f in
  let? q := float_div file_frequency m in
  int_floor q.

(** *** The read-plan resolver *)

(** [self.known_keys] (lines 32-39). *)
Definition known_keys : list string :=
  [ "downsample"; "channels_to_read"; "start_read"; "end_read";
    "start_time"; "end_time"; "max_frequency" ].

(** [dict(downsample=1, channels_to_read=header.channel_list,
    start_read=0, end_read=header.data_length_reads)] *)
Definition default_settings_of (header : DigHeader) : dict :=
  <["downsample" := VInt 1]>
    (<["channels_to_read" := VList (VInt <$> channel_list header)]>
       (<["start_read" := VInt 0]>
          (<["end_read" := VInt (data_length_reads header)]> ∅))).

(** The three messages for a colliding pair of settings; the source
    writes the names between double quotes. *)
Definition only_one_start : string :=
  "Please only specify one of " ++ quoted "start_time" ++ " or "
    ++ quoted "start_read" ++ ".".
Definition only_one_end : string :=
  "Please only specify one of " ++ quoted "end_time" ++ " or "
    ++ quoted "end_read" ++ ".".
Definition only_one_frequency : string :=
  "Please only specify one of " ++ quoted "max_frequency" ++ " or "
    ++ quoted "down_sample".

Definition unknown_keys_warning (unknown_keys : gset string) (known_settings : list string)
  : message :=
  Message "Keys {} are not known.  Available settings are {}"
          [FKeys (elements unknown_keys); FKeys known_settings].

(** [define_read_settings] (lines 55-114).  [self.known_keys],
    [self.header], [self.user_settings] and [self.default_settings] are
    the attributes of the session it reads; the plan it returns is the
    reference to [settings_dict]. *)
Definition define_read_settings
    (known_settings : list string) (header : DigHeader)
    (user_settings : value) (default_settings : loc) : M (st heap) loc :=
  match user_settings with
  | VDict user =>
      let* user_keys := dict_keys user in
      if negb (bool_decide (user_keys ⊂ list_to_set known_settings)) then
        let unknown_keys := user_keys ∖ list_to_set known_settings in
        let warning := unknown_keys_warning unknown_keys known_settings in
        print warning ;;;
        raise (DigReadSettingError warning)
      else
        let* settings_dict := dict_copy default_settings in
        let* default_keys := dict_keys default_settings in
        for_each (elements default_keys) (fun key =>
          if bool_decide (key ∈ user_keys) then
            let* v := dict_getitem user key in
            dict_setitem settings_dict key v
          else ret tt) ;;;
        (let* chans := dict_getitem settings_dict "channels_to_read" in
         match chans with
         | VInt _ =>
             let* c := dict_getitem user "channels_to_read" in
             dict_setitem settings_dict "channels_to_read" (VList [c])
         | _ => ret tt
         end) ;;;
        (if bool_decide ("start_time" ∈ user_keys) then
           if bool_decide ("start_read" ∈ user_keys) then
             raise (DigReadSettingError
                      (plain only_one_start))
           else
             let* start_time := dict_getitem user "start_time" in
             let* r := lift (convert_time_to_read header start_time) in
             dict_setitem settings_dict "start_read" (VInt r)
         else ret tt) ;;;
        (if bool_decide ("end_time" ∈ user_keys) then
           if bool_decide ("end_read" ∈ user_keys) then
             raise (DigReadSettingError
                      (plain only_one_end))
           else
             let* end_time := dict_getitem user "end_time" in
             let* r := lift (convert_time_to_read header end_time) in
             dict_setitem settings_dict "end_read" (VInt r)
         else ret tt) ;;;
        (if bool_decide ("max_frequency" ∈ user_keys) then
           if bool_decide ("downsample" ∈ user_keys) then
             raise (DigReadSettingError
                      (plain only_one_frequency))
           else
             let* max_f := dict_getitem user "max_frequency" in
             let* r := lift (convert_max_frequency_to_downsample header max_f) in
             dict_setitem settings_dict "downsample" (VInt r)
         else ret tt) ;;;
        ret settings_dict
  | _ => raise (DigReadSettingError (plain "Requested settings must be as a dictionary"))
  end.

End Resolver.

(** [__init__], lines 45-50: the default settings are built from the
    header in a dictionary of their own, and the read plan is resolved
    from them and the user's settings. *)
Definition init_read_settings {num : Type} `{!PyFloat num}
    (header : DigHeader num) (user_settings : value num) : M (st (heap num)) loc :=
  let* default_settings :=
    (fun s => let l := fresh (dom (obj s)) in
              (inr l, St (<[l := default_settings_of header]> (obj s)) (stdout s))) in
  define_read_settings known_keys header user_settings default_settings.

(** [set_source]: a missing or empty [doc_id] is falsy. *)
Definition set_source (doc_id : option string) : string :=
  match doc_id with
  | Some (String _ _) => "server"
  | _ => "local"
  end.

(** ** The data assembler and the channel accessor *)


(** What [np.zeros] depends on outside the program: the largest number
    of elements numpy accepts for an array (a larger or a negative
    length is a [ValueError]) and the number of elements the free memory
    can hold (a larger request is a [MemoryError]). *)
Record platform : Type := {
  max_elements : Z;
  free_elements : Z
}.

(** What [np.zeros] is given as the length of an array: a Python [int]
    or a Python [float]. *)
Inductive length_arg : Type :=
| IntLength (n : Z)
| FloatLength (x : float).

(** What [channels_to_read] of the reader may be: a sequence of channel
    numbers, or an object that cannot be iterated. *)
Inductive channels : Type :=
| Channels (l : list Z)
| NotIterable.

Section Assembler.

(** The arrays [np.zeros] makes hold [float64]; [raw] is the type of
    the samples the segment reader delivers and [cast] is numpy's
    conversion of such a sample to [float64] on assignment. *)
Context {num : Type} {raw : Type} (cast : raw → float).

Abbreviation array := (list float).

(** A segment: a dictionary from channel number to a run of samples, in
    its iteration order. *)
Definition segment : Type := list (Z * list raw).

(** The attributes of the segment reader ([DigRead], a collaborator
    outside this module) that [DigAccess] uses: [settings['start_read']],
    [settings['end_read']], [downsample], [channels_to_read] and the
    segments [data_segments()] yields. *)
Record DigRead : Type := {
  settings_start_read : Z;
  settings_end_read : Z;
  downsample : Z;
  channels_to_read : channels;
  data_segments : list segment
}.

(** The session object.  [load_count] is a ghost field: it counts the
    calls of [load_data_dict] and no code reads it. *)
Record DigAccess : Type := {
  header : DigHeader num;
  read : DigRead;
  _internal_data_dict : gmap Z array;
  load_count : nat
}.

Definition set_internal_data_dict (d : gmap Z array) (self : DigAccess) : DigAccess :=
  {| header := header self; read := read self;
     _internal_data_dict := d; load_count := load_count self |}.

Definition count_load (self : DigAccess) : DigAccess :=
  {| header := header self; read := read self;
     _internal_data_dict := _internal_data_dict self;
     load_count := S (load_count self) |}.

(** [np.zeros(n)]: a [float] is refused as a length, whatever its
    value. *)
Definition np_zeros (p : platform) (n : length_arg) : result array :=
  match n with
  | FloatLength _ => err TypeError
  | IntLength n =>
      if (n <? 0) || (max_elements p <? n) then err ValueError
      else if free_elements p <? n then err MemoryError
      else ok (replicate (Z.to_nat n) 0%float)
  end.

(** [for chn in read_channels] *)
Definition iterate (c : channels) : result (list Z) :=
  match c with
  | Channels l => ok l
  | NotIterable => err TypeError
  end.

(** [chn in channels_to_read] *)
Definition contains (c : channels) (chn : Z) : result bool :=
  match c with
  | Channels l => ok (bool_decide (chn ∈ l))
  | NotIterable => err TypeError
  end.

(** [[(chn, np.zeros(array_size)) for chn in read_channels]] *)
Fixpoint zeros_for (p : platform) (array_size : length_arg) (chans : list Z)
  : result (list (Z * array)) :=
  match chans with
  | [] => ok []
  | chn :: rest =>
      let? a := np_zeros p array_size in
      let? r := zeros_for p array_size rest in
      ok ((chn, a) :: r)
  end.

(** [dict(pairs)]: a later pair replaces an earlier one with its key. *)
Definition dict_of_pairs (pairs : list (Z * array)) : gmap Z array :=
  foldl (fun m kv => <[kv.1 := kv.2]> m) ∅ pairs.

Definition too_large_for_memory : message :=
  plain "File too large for working memory try clearing space or using the .data_generator method".
Definition too_large_for_numpy : message :=
  plain "File larger than maximum allowed numpy array size try using the .data_generator method".

(** [allocate_data_dict] (lines 167-179).  [number_of_reads / downsample]
    divides two integers, so [array_size] is a [float]. *)
Definition allocate_data_dict (p : platform) : M (st DigAccess) unit :=
  let* self := get_obj in
  let number_of_reads := settings_end_read (read self) - settings_start_read (read self) in
  let downsample := downsample (read self) in
  let* array_size := lift (truediv number_of_reads downsample) in
  let read_channels := channels_to_read (read self) in
  try_except
    (let* pairs := lift (let? chans := iterate read_channels in
                         zeros_for p (FloatLength array_size) chans) in
     modify_obj (set_internal_data_dict (dict_of_pairs pairs)))
    (fun e => match e with
              | MemoryError => Some (print too_large_for_memory ;;; raise MemoryError)
              | ValueError => Some (print too_large_for_numpy)
              | _ => None
              end).

(** [arr[index:index + len(run)] = run] on a numpy array: the slice is
    clipped to the array; a run as long as the clipped slice replaces
    it, a run of one sample is broadcast over it, and any other run is a
    [ValueError].  The samples are cast to the array's [float64]. *)
Definition slice_assign (arr : array) (index : nat) (run : list raw) : result array :=
  let lo := Nat.min index (length arr) in
  let hi := Nat.min (index + length run)%nat (length arr) in
  if bool_decide (hi - lo = length run)%nat then
    ok (take lo arr ++ (cast <$> run) ++ drop hi arr)
  else
    match run with
    | [x] => ok (take lo arr ++ replicate (hi - lo)%nat (cast x) ++ drop hi arr)
    | _ => err ValueError
    end.

(** The inner loop of [load_data_dict] over the channels of one
    segment; [len] is the local variable [length], unbound at first. *)
Fixpoint load_segment (index : nat) (len : option nat) (seg : segment)
  : M (st DigAccess) (option nat) :=
  match seg with
  | [] => ret len
  | (chn, run) :: rest =>
      let* self := get_obj in
      match _internal_data_dict self !! chn with
      | None => raise (KeyError (Message "{}" [FChan chn]))
      | Some arr =>
          let* arr' := lift (slice_assign arr index run) in
          modify_obj (fun self =>
            set_internal_data_dict (<[chn := arr']> (_internal_data_dict self)) self) ;;;
          load_segment index (Some (length run)) rest
      end
  end.

(** The outer loop, over the segments. *)
Fixpoint load_segments (index : nat) (len : option nat) (count : nat)
    (segs : list segment) : M (st DigAccess) unit :=
  match segs with
  | [] => ret tt
  | seg :: rest =>
      let* len' := load_segment index len seg in
      match len' with
      | None => raise (UnboundLocalError "length")
      | Some n => load_segments (index + n)%nat len' (S count) rest
      end
  end.

Definition load_data_dict (p : platform) : M (st DigAccess) unit :=
  modify_obj count_load ;;;
  allocate_data_dict p ;;;
  let* self := get_obj in
  load_segments 0 None 0 (data_segments (read self)).

(** The property [data_dict]: an empty dictionary is falsy. *)
Definition data_dict (p : platform) : M (st DigAccess) (gmap Z array) :=
  let* self := get_obj in
  (if bool_decide (_internal_data_dict self = ∅) then load_data_dict p else ret tt) ;;;
  let* self := get_obj in
  ret (_internal_data_dict self).

Definition not_iterable : message :=
  plain "channels_to_read must be an iterable sequence.  A one element list suffices if only one channel is desired".

Definition invalid_channel (chn : Z) (h : DigHeader num) : message :=
  Message "Invalid channel: {} has not been read Channel numbers available for this file are {} corresponding to channels {}"
          [FChan chn; FChans (channel_list h); FNames (channel_names h)].

Definition channel (p : platform) (chn : Z) : M (st DigAccess) array :=
  let* self := get_obj in
  let* found :=
    try_except
      (let* present := lift (contains (channels_to_read (read self)) chn) in
       if present then
         let* d := data_dict p in
         match d !! chn with
         | Some a => ret (Some a)
         | None => raise (KeyError (Message "{}" [FChan chn]))
         end
       else ret None)
      (fun e => match e with
                | TypeError => Some (raise (DigReadSettingError not_iterable))
                | _ => None
                end) in
  match found with
  | Some a => ret a
  | None => raise (KeyError (invalid_channel chn (header self)))
  end.

End Assembler.

(** * The vocabulary of the properties *)

(** ** Headers, heaps and the exclusive pairs *)

(** A header with the given native frequency; the other fields do not
    matter to the converters. *)
Definition header_with {num : Type} (f : num) : DigHeader num :=
  {| channel_list := [0; 1]; channel_names := ["A"; "B"];
     data_length_reads := 10; file_frequency := f; output_frequency := f |}.

(** A heap with the user's dictionary at 0 and the default settings of
    [hdr] at 1, as [__init__] leaves them before resolving. *)
Definition session_heap {num : Type} (hdr : DigHeader num) (du : dict num) : heap num :=
  <[0%nat := du]> (<[1%nat := default_settings_of hdr]> ∅).

(** The three mutually exclusive pairs, in the order the resolver
    examines them. *)
Inductive exclusive_pair : Type := StartPair | EndPair | FrequencyPair.

Definition conv_key (p : exclusive_pair) : string :=
  match p with
  | StartPair => "start_time"
  | EndPair => "end_time"
  | FrequencyPair => "max_frequency"
  end.

Definition read_key (p : exclusive_pair) : string :=
  match p with
  | StartPair => "start_read"
  | EndPair => "end_read"
  | FrequencyPair => "downsample"
  end.

Definition pair_message (p : exclusive_pair) : string :=
  match p with
  | StartPair => only_one_start
  | EndPair => only_one_end
  | FrequencyPair => only_one_frequency
  end.

Definition earlier (q p : exclusive_pair) : Prop :=
  match q, p with
  | StartPair, EndPair | StartPair, FrequencyPair | EndPair, FrequencyPair => True
  | _, _ => False
  end.

(** ** The resolver as a function of the plan *)

Section PlanVocabulary.

Context {num : Type} `{!PyFloat num}.

Implicit Types (h : heap num) (du dd m plan : dict num) (l u d : loc)
  (out : list message) (hdr : DigHeader num) (p q : exclusive_pair).

(** The state in which the dictionary at [l] holds [m]. *)
Definition cfg h l m out : st (heap num) := St (<[l := m]> h) out.

(** What the loop over the default keys leaves in the plan: every
    listed key the user gave is overwritten with the user's value. *)
Definition overrides du m (keys : list string) : dict num :=
  foldl (fun m k => match du !! k with Some v => <[k := v]> m | None => m end) m keys.

(** The scalar-channel coercion as a function of the plan. *)
Definition wrap_scalar du : M (dict num) unit :=
  fun m =>
    match m !! "channels_to_read" with
    | None => (inl (KeyError (Message "{}" [FKey "channels_to_read"])), m)
    | Some (VInt _) =>
        match du !! "channels_to_read" with
        | Some c => (inr tt, <["channels_to_read" := VList [c]]> m)
        | None => (inl (KeyError (Message "{}" [FKey "channels_to_read"])), m)
        end
    | Some _ => (inr tt, m)
    end.

(** One of the three blocks for a time/frequency setting [kconv] and
    the setting [kread] it stands for, as a function of the plan. *)
Definition convert_pair du (kconv kread msg : string) (conv : value num → result Z)
  : M (dict num) unit :=
  fun m =>
    match du !! kconv with
    | None => (inr tt, m)
    | Some v =>
        if bool_decide (kread ∈ dom du) then (inl (DigReadSettingError (plain msg)), m)
        else match conv v with
             | inr r => (inr tt, <[kread := VInt r]> m)
             | inl e => (inl e, m)
             end
    end.

(** Lines 87-114 of [define_read_settings] as a function of the user's
    dictionary and the default one. *)
Definition resolve hdr du dd : result unit * dict num :=
  (wrap_scalar du ;;;
   convert_pair du "start_time" "start_read" only_one_start (convert_time_to_read hdr) ;;;
   convert_pair du "end_time" "end_read" only_one_end (convert_time_to_read hdr) ;;;
   convert_pair du "max_frequency" "downsample" only_one_frequency
     (convert_max_frequency_to_downsample hdr))
    (overrides du dd (elements (dom dd))).

Definition pair_conv hdr p : value num → result Z :=
  match p with
  | StartPair | EndPair => convert_time_to_read hdr
  | FrequencyPair => convert_max_frequency_to_downsample hdr
  end.

(** Both members of the pair are keys of the user's settings. *)
Definition collides du p : Prop := conv_key p ∈ dom du ∧ read_key p ∈ dom du.

(** The pair does not collide and its time or frequency setting, when
    given, converts. *)
Definition passes hdr du p : Prop :=
  ¬ collides du p ∧ ∀ v, du !! conv_key p = Some v → ∃ r, pair_conv hdr p v = ok r.

Definition pair_block hdr du p : M (dict num) unit :=
  convert_pair du (conv_key p) (read_key p) (pair_message p) (pair_conv hdr p).

(** The four fields of a resolved plan. *)
Definition plan_keys : list string :=
  [ "downsample"; "channels_to_read"; "start_read"; "end_read" ].

(** The default value of the read-domain setting of a pair. *)
Definition default_read hdr p : value num :=
  match p with
  | StartPair => VInt 0
  | EndPair => VInt (data_length_reads hdr)
  | FrequencyPair => VInt 1
  end.

(** What the block of a pair that passes does to the plan. *)
Definition converted hdr du p m : dict num :=
  match du !! conv_key p with
  | Some v => match pair_conv hdr p v with
              | inr r => <[read_key p := VInt r]> m
              | inl _ => m
              end
  | None => m
  end.

(** The plan the resolver builds when every pair passes. *)
Definition resolved_plan hdr du : dict num :=
  converted hdr du FrequencyPair
    (converted hdr du EndPair
       (converted hdr du StartPair
          (wrap_scalar du (overrides du (default_settings_of hdr)
                             (elements (dom (default_settings_of hdr))))).2)).

(** The field [k] of the plan holds an integer. *)
Definition is_int plan (k : string) : Prop := ∃ n, plan !! k = Some (VInt n).

(** The field [k] of the plan holds a list. *)
Definition is_sequence plan (k : string) : Prop := ∃ vs, plan !! k = Some (VList vs).

End PlanVocabulary.

(** ** Binary64 values as rationals *)

(** The rational number a finite binary64 value stands for. *)
Definition SF2Q (x : spec_float) : Q :=
  match x with
  | S754_finite s m e =>
      let a := if s then Z.neg m else Z.pos m in
      if 0 <=? e then inject_Z (a * 2 ^ e) else a # (2 ^ Z.to_pos (- e))
  | _ => 0%Q
  end.

(** Zero or a finite number: neither an infinity nor a NaN. *)
Definition finite (x : spec_float) : Prop :=
  match x with
  | S754_zero _ | S754_finite _ _ _ => True
  | _ => False
  end.


(** ** Concrete sessions *)

(** A 1000 Hz file, as binary64 sees it. *)
Definition hdr1000 : DigHeader float := header_with 1000%float.

(** [{"downsample": "fast"}] *)
Definition settings_fast : dict float := <["downsample" := VStr "fast"]> ∅.

(** [{"start_time": 0.0015, "channels_to_read": 5}] *)
Definition settings_scalar : dict float :=
  <["start_time" := VFloat 0x1.89374bc6a7efap-10%float]>
    (<["channels_to_read" := VInt 5]> ∅).

(** [{"start_time": "soon", "end_time": 1, "end_read": 2}] *)
Definition settings_soon : dict float :=
  <["start_time" := VStr "soon"]>
    (<["end_time" := VInt 1]> (<["end_read" := VInt 2]> ∅)).

(** [{"start_time": 0.0015, "end_time": 1, "end_read": 2}] *)
Definition settings_end_twice : dict float :=
  <["start_time" := VFloat 0x1.89374bc6a7efap-10%float]>
    (<["end_time" := VInt 1]> (<["end_read" := VInt 2]> ∅)).

(** A 64-bit numpy: an array of doubles holds at most [2^60 - 1]
    elements; [2^30] of them fit in the free memory. *)
Definition numpy64 : platform := {| max_elements := 2 ^ 60 - 1; free_elements := 2 ^ 30 |}.

(** A fresh session over a reader of 64-bit integer samples, on a
    1000 Hz file with channels 0 and 1 (named A and B). *)
Definition session_over (r : DigRead (raw := Z)) : DigAccess (num := float) (raw := Z) :=
  {| header := header_with 1000%float; read := r;
     _internal_data_dict := ∅; load_count := 0 |}.

(** Ten reads of channels A and B, in segments of 4, 4 and 2 reads. *)
Definition reader_ab : DigRead (raw := Z) :=
  {| settings_start_read := 0; settings_end_read := 10; downsample := 1;
     channels_to_read := Channels [0; 1];
     data_segments :=
       [ [(0, [1; 2; 3; 4]); (1, [11; 12; 13; 14])];
         [(0, [5; 6; 7; 8]); (1, [15; 16; 17; 18])];
         [(0, [9; 10]); (1, [19; 20])] ] |}.


(** A plan with no channel; the reader yields no segment. *)
Definition reader_empty : DigRead (raw := Z) :=
  {| settings_start_read := 0; settings_end_read := 10; downsample := 1;
     channels_to_read := Channels [];
     data_segments := [] |}.

(** A plan whose downsample factor is zero. *)
Definition reader_zero_downsample : DigRead (raw := Z) :=
  {| settings_start_read := 0; settings_end_read := 10; downsample := 0;
     channels_to_read := Channels [0; 1];
     data_segments := [] |}.



(** Settings that give every known key. *)
Definition settings_all : dict float :=
  <["downsample" := VInt 1]>
    (<["channels_to_read" := VList [VInt 0]]>
       (<["start_read" := VInt 0]>
          (<["end_read" := VInt 10]>
             (<["start_time" := VInt 0]>
                (<["end_time" := VInt 1]>
                   (<["max_frequency" := VInt 100]> ∅)))))).

(** [{"downsample": 2, "channels_to_read": [1], "start_read": 2,
    "end_read": 8}] *)
Definition settings_plan : dict float :=
  <["downsample" := VInt 2]>
    (<["channels_to_read" := VList [VInt 1]]>
       (<["start_read" := VInt 2]> (<["end_read" := VInt 8]> ∅))).

(** ** The claims that fail, as the specification states them *)


(** C2, as the specification states it: known keys without a
    conflicting pair always resolve, to a plan whose read and downsample
    fields are integers and whose channels are a sequence, whatever
    values the user supplied. *)
Definition resolution_always_typed : Prop :=
  ∀ (hdr : DigHeader float) (h : heap float) out u d (du : dict float),
    h !! u = Some du →
    h !! d = Some (default_settings_of hdr) →
    dom du ⊆ list_to_set known_keys →
    (∀ p, ¬ collides du p) →
    ∃ l s' plan,
      define_read_settings known_keys hdr (VDict u) d (St h out) = (inr l, s')
      ∧ obj s' !! l = Some plan
      ∧ is_int plan "downsample" ∧ is_int plan "start_read" ∧ is_int plan "end_read"
      ∧ is_sequence plan "channels_to_read".

(** C9, as the specification states it: whenever both members of a
    pair are given, resolution fails with a [DigReadSettingError] that
    names a colliding pair. *)
Definition collision_always_signalled : Prop :=
  ∀ (hdr : DigHeader float) (h : heap float) out u d (du : dict float) p,
    h !! u = Some du →
    h !! d = Some (default_settings_of hdr) →
    collides du p →
    ∃ q s',
      collides du q
      ∧ define_read_settings known_keys hdr (VDict u) d (St h out)
        = (inl (DigReadSettingError (plain (pair_message q))), s').

(** * Properties *)

(** ** Binary64 rounding *)

Section Shift.











End Shift.

Section BelowOne.






End BelowOne.

Section DivisionBelowOne.




End DivisionBelowOne.

(** ** The converters *)

Lemma sf_round_finite (up : bool) (x : spec_float) :
  finite x →
  sf_round up x = ok (if up then Qceiling (SF2Q x) else Qfloor (SF2Q x)).
Proof.
  destruct x as [s|s| |s m e]; try contradiction; intros _.
  - now destruct up.
  - cbn [sf_round SF2Q]. destruct (0 <=? e) eqn:He.
    + destruct up; unfold ok; f_equal.
      * now rewrite Qceiling_Z.
      * now rewrite Qfloor_Z.
    + assert (Hpow : 2 ^ (- e) = Z.pos (2 ^ Z.to_pos (- e))).
      { rewrite Pos2Z.inj_pow. f_equal. rewrite Z2Pos.id; lia. }
      destruct up; unfold ok; f_equal.
      * unfold Qceiling, Qfloor, Qopp. cbn [Qnum Qden]. now rewrite Hpow.
      * unfold Qfloor. now rewrite Hpow.
Qed.

Lemma binary64_one : float_of_int 1 = ok 1%float.
Proof. vm_compute. reflexivity. Qed.

(** In binary64 the time-to-read conversion is the ceiling of the
    rounded quotient of the time by the rounded period. *)
Lemma binary64_time_to_read (hdr : DigHeader float) (t : float) :
  PrimFloat.eqb (file_frequency hdr) PrimFloat.zero = false →
  PrimFloat.eqb (1 / file_frequency hdr)%float PrimFloat.zero = false →
  finite (Prim2SF (t / (1 / file_frequency hdr))%float) →
  convert_time_to_read hdr (VFloat t)
  = ok (Qceiling (SF2Q (Prim2SF (t / (1 / file_frequency hdr))%float))).
Proof.
  intros Hf Hp Hfin. unfold convert_time_to_read.
  rewrite binary64_one. cbn [bindR ok as_float float_div binary64].
  unfold Binary64.div. rewrite Hf. cbn [bindR ok]. rewrite Hp. cbn [bindR ok int_ceil binary64].
  now rewrite (sf_round_finite true _ Hfin).
Qed.





(** C6 (the code at the failing input): on a 49 Hz file the time 1 s
    is converted to read 50.  The period [1/49.0] is rounded down, so
    the quotient of the time by it is the double just above 49, whose
    ceiling is 50; [ceil(t * file_frequency)] is 49, and read 49 lies
    exactly at 1 s. *)
Theorem C6_rounds_past_exact_read :
  convert_time_to_read (header_with 49%float) (VFloat 1%float) = ok 50
  ∧ (1 / (1 / 49))%float = 0x1.8800000000001p+5%float
  ∧ int_ceil (1 * 49)%float = ok 49
  ∧ (49 / 49)%float = 1%float.
Proof. repeat split; vm_compute; reflexivity. Qed.




(** The conversions of the examples: 3 for a maximum frequency of
    300 Hz, 0 for one of 2000 Hz, on a 1000 Hz file. *)
Lemma max_frequency_examples :
  convert_max_frequency_to_downsample hdr1000 (VFloat 300%float) = ok 3
  ∧ convert_max_frequency_to_downsample hdr1000 (VInt 300) = ok 3
  ∧ convert_max_frequency_to_downsample hdr1000 (VFloat 2000%float) = ok 0
  ∧ convert_max_frequency_to_downsample hdr1000 (VFloat 0%float) = err ZeroDivisionError.
Proof. repeat split; vm_compute; reflexivity. Qed.

(** ** The read-plan resolver *)

Section ResolverFacts.

Context {num : Type} `{!PyFloat num}.

Implicit Types (h : heap num) (du dd m : dict num) (l u d : loc)
  (out : list message) (hdr : DigHeader num).

Lemma deref_insert_eq h l m : deref (<[l := m]> h) l = m.
Proof. unfold deref. now rewrite lookup_insert_eq. Qed.

Lemma deref_insert_ne h l m u : u ≠ l → deref (<[l := m]> h) u = deref h u.
Proof. intros Hne. unfold deref. now rewrite lookup_insert_ne. Qed.

Lemma deref_Some h u du : h !! u = Some du → deref h u = du.
Proof. intros E. unfold deref. now rewrite E. Qed.

Lemma fresh_not_allocated h u du : h !! u = Some du → u ≠ fresh (dom h).
Proof.
  intros E ->. apply (is_fresh (dom h)). apply elem_of_dom. now rewrite E.
Qed.

Lemma run_getitem_user h l m out u du k :
  u ≠ l → h !! u = Some du →
  dict_getitem u k (cfg h l m out)
  = (match du !! k with
     | Some v => inr v
     | None => inl (KeyError (Message "{}" [FKey k]))
     end, cfg h l m out).
Proof.
  intros Hne E. unfold dict_getitem, cfg. cbn [obj].
  rewrite (deref_insert_ne _ _ _ _ Hne), (deref_Some _ _ _ E).
  now destruct (du !! k).
Qed.

Lemma run_getitem_plan h l m out k :
  dict_getitem l k (cfg h l m out)
  = (match m !! k with
     | Some v => inr v
     | None => inl (KeyError (Message "{}" [FKey k]))
     end, cfg h l m out).
Proof.
  unfold dict_getitem, cfg. cbn [obj]. rewrite deref_insert_eq.
  now destruct (m !! k).
Qed.

Lemma run_setitem_plan h l m out k v :
  dict_setitem l k v (cfg h l m out) = (inr tt, cfg h l (<[k := v]> m) out).
Proof.
  unfold dict_setitem, modify_obj, cfg. cbn [obj stdout].
  now rewrite deref_insert_eq, insert_insert_eq.
Qed.

Lemma bindM_ok {S A B} (c : M S A) (k : A → M S B) s a s' :
  c s = (inr a, s') → bindM c k s = k a s'.
Proof. intros E. unfold bindM. now rewrite E. Qed.

Lemma bindM_err {S A B} (c : M S A) (k : A → M S B) s e s' :
  c s = (inl e, s') → bindM c k s = (inl e, s').
Proof. intros E. unfold bindM. now rewrite E. Qed.

Lemma run_overrides h l out u du keys : ∀ m,
  u ≠ l → h !! u = Some du →
  for_each keys (fun key =>
    if bool_decide (key ∈ dom du) then
      let* v := dict_getitem u key in dict_setitem l key v
    else ret tt) (cfg h l m out)
  = (inr tt, cfg h l (overrides du m keys) out).
Proof.
  induction keys as [|key keys IH]; intros m Hne E; [reflexivity|].
  cbn [for_each overrides foldl].
  destruct (du !! key) as [v|] eqn:Ek.
  - rewrite bool_decide_eq_true_2 by (apply elem_of_dom; now rewrite Ek).
    erewrite bindM_ok; [now apply IH|].
    erewrite bindM_ok; [apply run_setitem_plan|].
    rewrite (run_getitem_user _ _ _ _ _ _ _ Hne E), Ek. reflexivity.
  - rewrite bool_decide_eq_false_2
      by (rewrite elem_of_dom, Ek; intros [? ?]; discriminate).
    erewrite bindM_ok; [now apply IH|]. reflexivity.
Qed.

Lemma lookup_overrides du keys k : ∀ m,
  overrides du m keys !! k
  = if bool_decide (k ∈ keys)
    then match du !! k with Some v => Some v | None => m !! k end
    else m !! k.
Proof.
  induction keys as [|x keys IH]; intros m; [reflexivity|].
  cbn [overrides foldl]. fold (overrides du). unfold overrides in IH |- *. rewrite IH.
  destruct (decide (k = x)) as [->|Hne].
  - rewrite (bool_decide_eq_true_2 (x ∈ x :: keys)) by left.
    destruct (du !! x) as [v|] eqn:Ex.
    + rewrite lookup_insert_eq. now destruct (bool_decide (x ∈ keys)).
    + now destruct (bool_decide (x ∈ keys)).
  - assert (Hiff : bool_decide (k ∈ x :: keys) = bool_decide (k ∈ keys)).
    { apply bool_decide_ext. rewrite elem_of_cons.
      split; [intros [?|?]; [congruence|assumption] | now right]. }
    rewrite Hiff.
    destruct (du !! x) as [v|] eqn:Ex; [|reflexivity].
    now rewrite lookup_insert_ne by congruence.
Qed.

Lemma run_wrap_scalar h l m out u du :
  u ≠ l → h !! u = Some du →
  (let* chans := dict_getitem l "channels_to_read" in
   match chans with
   | VInt _ =>
       let* c := dict_getitem u "channels_to_read" in
       dict_setitem l "channels_to_read" (VList [c])
   | _ => ret tt
   end) (cfg h l m out)
  = ((wrap_scalar du m).1, cfg h l (wrap_scalar du m).2 out).
Proof.
  intros Hne E. unfold wrap_scalar.
  destruct (m !! "channels_to_read") as [v|] eqn:Ec.
  - erewrite bindM_ok; [|rewrite run_getitem_plan, Ec; reflexivity].
    destruct v; try reflexivity.
    destruct (du !! "channels_to_read") as [c|] eqn:Eu.
    + erewrite bindM_ok; [apply run_setitem_plan|].
      rewrite (run_getitem_user _ _ _ _ _ _ _ Hne E), Eu. reflexivity.
    + erewrite bindM_err; [reflexivity|].
      rewrite (run_getitem_user _ _ _ _ _ _ _ Hne E), Eu. reflexivity.
  - erewrite bindM_err; [reflexivity|]. rewrite run_getitem_plan, Ec. reflexivity.
Qed.

Lemma run_convert_pair h l m out u du kconv kread msg conv :
  u ≠ l → h !! u = Some du →
  (if bool_decide (kconv ∈ dom du) then
     if bool_decide (kread ∈ dom du) then
       raise (DigReadSettingError (plain msg))
     else
       let* t := dict_getitem u kconv in
       let* r := lift (conv t) in
       dict_setitem l kread (VInt r)
   else ret tt) (cfg h l m out)
  = ((convert_pair du kconv kread msg conv m).1,
     cfg h l (convert_pair du kconv kread msg conv m).2 out).
Proof.
  intros Hne E. unfold convert_pair.
  destruct (du !! kconv) as [v|] eqn:Ek.
  - rewrite bool_decide_eq_true_2 by (apply elem_of_dom; now rewrite Ek).
    destruct (bool_decide (kread ∈ dom du)); [reflexivity|].
    erewrite bindM_ok; [|rewrite (run_getitem_user _ _ _ _ _ _ _ Hne E), Ek; reflexivity].
    destruct (conv v) as [e|r] eqn:Ev.
    + erewrite bindM_err; reflexivity.
    + erewrite bindM_ok; [apply run_setitem_plan|reflexivity].
  - rewrite bool_decide_eq_false_2
      by (rewrite elem_of_dom, Ek; intros [? ?]; discriminate).
    reflexivity.
Qed.

(** Sequencing two steps that each act on the plan only. *)
Lemma run_seq {A B} (c : M (st (heap num)) A) (k : A → M (st (heap num)) B)
    (f : M (dict num) A) (g : A → M (dict num) B) h l out m :
  c (cfg h l m out) = ((f m).1, cfg h l (f m).2 out) →
  (∀ a m', k a (cfg h l m' out) = ((g a m').1, cfg h l (g a m').2 out)) →
  bindM c k (cfg h l m out) = ((bindM f g m).1, cfg h l (bindM f g m).2 out).
Proof.
  intros Ec Ek. unfold bindM. rewrite Ec.
  destruct (f m) as [[e|a] m']; cbn [fst snd]; [reflexivity|apply Ek].
Qed.

(** What [__init__] runs: the resolver over a fresh dictionary of
    default settings. *)
Lemma run_init_read_settings hdr (user_settings : value num) h out :
  init_read_settings hdr user_settings (St h out)
  = define_read_settings known_keys hdr user_settings (fresh (dom h))
      (St (<[fresh (dom h) := default_settings_of hdr]> h) out).
Proof. reflexivity. Qed.

(** [define_read_settings] on a dictionary of settings: either the key
    check fails, with the warning printed and the heap untouched, or
    the plan is resolved in a fresh dictionary. *)
Lemma run_define_read_settings hdr h out u d du :
  h !! u = Some du →
  define_read_settings known_keys hdr (VDict u) d (St h out)
  = if bool_decide (dom du ⊂ list_to_set known_keys) then
      let l := fresh (dom h) in
      let r := resolve hdr du (deref h d) in
      (match r.1 with inl e => inl e | inr _ => inr l end, cfg h l r.2 out)
    else
      let w := unknown_keys_warning (dom du ∖ list_to_set known_keys) known_keys in
      (inl (DigReadSettingError w), St h (out ++ [w])).
Proof.
  intros E. unfold define_read_settings.
  erewrite bindM_ok; [|unfold dict_keys; cbn [obj]; rewrite (deref_Some _ _ _ E); reflexivity].
  destruct (bool_decide (dom du ⊂ list_to_set known_keys)); cbn [negb]; [|reflexivity].
  pose proof (fresh_not_allocated _ _ _ E) as Hne.
  erewrite bindM_ok; [|reflexivity].
  erewrite bindM_ok; [|reflexivity]. cbn [obj stdout].
  remember (fresh (dom h)) as l eqn:El.
  assert (Hd : deref (<[l := deref h d]> h) d = deref h d).
  { destruct (decide (d = l)) as [->|Hdl];
      [apply deref_insert_eq | now apply deref_insert_ne]. }
  rewrite Hd. fold (cfg h l (deref h d) out).
  erewrite bindM_ok; [|now apply run_overrides].
  unfold resolve.
  set (m := overrides du (deref h d) (elements (dom (deref h d)))).
  match goal with
  | |- ?lhs = _ =>
      transitivity
        (let r := (wrap_scalar du ;;;
                   convert_pair du "start_time" "start_read" only_one_start
                     (convert_time_to_read hdr) ;;;
                   convert_pair du "end_time" "end_read" only_one_end
                     (convert_time_to_read hdr) ;;;
                   convert_pair du "max_frequency" "downsample" only_one_frequency
                     (convert_max_frequency_to_downsample hdr) ;;;
                   ret l) m in
         (r.1, cfg h l r.2 out))
  end.
  - apply run_seq; [now apply run_wrap_scalar|]. intros _ m1.
    apply run_seq; [now apply run_convert_pair|]. intros _ m2.
    apply run_seq; [now apply run_convert_pair|]. intros _ m3.
    apply run_seq; [now apply run_convert_pair|]. intros _ m4.
    reflexivity.
  - cbv zeta. unfold bindM.
    destruct (wrap_scalar du m) as [[e|[]] m1]; [reflexivity|].
    destruct (convert_pair du "start_time" _ _ _ m1) as [[e|[]] m2]; [reflexivity|].
    destruct (convert_pair du "end_time" _ _ _ m2) as [[e|[]] m3]; [reflexivity|].
    destruct (convert_pair du "max_frequency" _ _ _ m3) as [[e|[]] m4]; reflexivity.
Qed.

End ResolverFacts.

Section ResolverClaims.

Context {num : Type} `{!PyFloat num}.

Implicit Types (h : heap num) (du dd m : dict num) (l u d : loc)
  (out : list message) (hdr : DigHeader num).

(** C8: a settings mapping with a key outside the known keys is refused
    with a [DigReadSettingError] whose message lists exactly the unknown
    keys, and the recognised ones; the warning is printed, the heap is
    left as it was and no plan is produced. *)
Theorem C8_unknown_keys_rejected hdr h out u d du :
  h !! u = Some du →
  (∃ k, k ∈ dom du ∧ k ∉ known_keys) →
  ∃ unknown,
    let warning :=
      Message "Keys {} are not known.  Available settings are {}"
              [FKeys unknown; FKeys known_keys] in
    define_read_settings known_keys hdr (VDict u) d (St h out)
    = (inl (DigReadSettingError warning), St h (out ++ [warning]))
    ∧ NoDup unknown
    ∧ ∀ k, k ∈ unknown ↔ k ∈ dom du ∧ k ∉ known_keys.
Proof.
  intros E (k & Hk & Hnk).
  exists (elements (dom du ∖ list_to_set (C := gset string) known_keys)).
  cbv zeta. split; [|split].
  - rewrite (run_define_read_settings _ _ _ _ _ _ E).
    rewrite bool_decide_eq_false_2; [reflexivity|].
    intros [Hsub _]. apply Hnk. apply (elem_of_list_to_set (C := gset string)).
    now apply Hsub.
  - apply NoDup_elements.
  - intros k'. rewrite elem_of_elements, elem_of_difference, elem_of_list_to_set.
    reflexivity.
Qed.

(** C10: resolution leaves every dictionary of the heap as it was, the
    user's settings and the default settings among them, whether it
    succeeds or fails; a plan it returns is a dictionary that did not
    exist before. *)
Theorem C10_inputs_not_mutated hdr h out user_settings d :
  (∀ u, user_settings = VDict u → is_Some (h !! u)) →
  let run := define_read_settings known_keys hdr user_settings d (St h out) in
  (∀ l x, h !! l = Some x → obj run.2 !! l = Some x)
  ∧ (∀ l, run.1 = inr l → h !! l = None ∧ is_Some (obj run.2 !! l)).
Proof.
  intros Hu run. subst run.
  destruct user_settings as [ |n|x|s|vs|u];
    try (split; [intros l y Hl; exact Hl | intros l Hl; cbv in Hl; discriminate Hl]).
  destruct (Hu u eq_refl) as [du E].
  rewrite (run_define_read_settings _ _ _ _ _ _ E).
  destruct (bool_decide (dom du ⊂ list_to_set known_keys)).
  - cbv zeta. cbn [fst snd cfg obj].
    assert (Hfresh : h !! fresh (dom h) = None).
    { apply not_elem_of_dom. apply is_fresh. }
    split.
    + intros l x Hl. rewrite lookup_insert_ne; [exact Hl|].
      intros <-. rewrite Hfresh in Hl. discriminate Hl.
    + intros l Hl. destruct (resolve hdr du (deref h d)).1; [discriminate Hl|].
      injection Hl as <-. split; [exact Hfresh|]. rewrite lookup_insert_eq. eauto.
  - cbv zeta. cbn [fst snd obj].
    split; [intros l x Hl; exact Hl | intros l Hl; discriminate Hl].
Qed.

End ResolverClaims.

(** C8 (witness): the settings [{"bogus": 1, "downsample": 2}]. *)
Lemma C8_unknown_keys_rejected_witness :
  ∃ unknown,
    let warning :=
      Message "Keys {} are not known.  Available settings are {}"
              [FKeys unknown; FKeys known_keys] in
    define_read_settings known_keys (header_with 1000%float) (VDict 0%nat) 1%nat
      (St (session_heap (header_with 1000%float)
             (<["bogus" := VInt 1]> (<["downsample" := VInt 2]> ∅))) [])
    = (inl (DigReadSettingError warning),
       St (session_heap (header_with 1000%float)
             (<["bogus" := VInt 1]> (<["downsample" := VInt 2]> ∅))) ([] ++ [warning]))
    ∧ NoDup unknown
    ∧ ∀ k, k ∈ unknown ↔
           k ∈ dom (<["bogus" := VInt 1]> (<["downsample" := VInt 2]> (∅ : dict float)))
           ∧ k ∉ known_keys.
Proof.
  apply (C8_unknown_keys_rejected (header_with 1000%float)
           (session_heap (header_with 1000%float)
              (<["bogus" := VInt 1]> (<["downsample" := VInt 2]> ∅)))
           [] 0%nat 1%nat).
  - reflexivity.
  - exists "bogus". split.
    + apply elem_of_dom. rewrite lookup_insert_eq. eauto.
    + intros H. vm_compute in H. repeat (apply elem_of_cons in H as [H|H]; [discriminate H|]).
      now apply elem_of_nil in H.
Defined.

Section PairFacts.

Context {num : Type} `{!PyFloat num}.

Implicit Types (h : heap num) (du dd m : dict num) (l u d : loc)
  (out : list message) (hdr : DigHeader num) (p q : exclusive_pair).

Lemma resolve_blocks hdr du dd :
  resolve hdr du dd
  = (wrap_scalar du ;;; pair_block hdr du StartPair ;;; pair_block hdr du EndPair ;;;
     pair_block hdr du FrequencyPair) (overrides du dd (elements (dom dd))).
Proof. reflexivity. Qed.

Lemma pair_block_collides hdr du p m :
  collides du p →
  pair_block hdr du p m = (inl (DigReadSettingError (plain (pair_message p))), m).
Proof.
  intros [Hc Hr]. unfold pair_block, convert_pair.
  apply elem_of_dom in Hc as [v ->].
  now rewrite bool_decide_eq_true_2.
Qed.

Lemma pair_block_passes hdr du p m :
  passes hdr du p →
  pair_block hdr du p m
  = (inr tt, match du !! conv_key p with
             | Some v => match pair_conv hdr p v with
                         | inr r => <[read_key p := VInt r]> m
                         | inl _ => m
                         end
             | None => m
             end).
Proof.
  intros [Hnc Hconv]. unfold pair_block, convert_pair.
  destruct (du !! conv_key p) as [v|] eqn:Ev; [|reflexivity].
  rewrite bool_decide_eq_false_2.
  - destruct (Hconv v eq_refl) as [r ->]. reflexivity.
  - intros Hr. apply Hnc. split; [|exact Hr]. apply elem_of_dom. now rewrite Ev.
Qed.

(** The plan after the loop over the default keys. *)
Lemma lookup_overrides_dom du dd k :
  overrides du dd (elements (dom dd)) !! k
  = match dd !! k with
    | Some x => Some (default x (du !! k))
    | None => None
    end.
Proof.
  rewrite lookup_overrides.
  destruct (dd !! k) as [x|] eqn:Ek.
  - rewrite bool_decide_eq_true_2
      by (apply elem_of_elements, elem_of_dom; now rewrite Ek).
    now destruct (du !! k).
  - rewrite bool_decide_eq_false_2; [reflexivity|].
    rewrite elem_of_elements, elem_of_dom, Ek. intros [? ?]; discriminate.
Qed.

Lemma lookup_default_settings hdr k :
  default_settings_of hdr !! k
  = if decide (k = "downsample") then Some (VInt 1)
    else if decide (k = "channels_to_read") then Some (VList (VInt <$> channel_list hdr))
    else if decide (k = "start_read") then Some (VInt 0)
    else if decide (k = "end_read") then Some (VInt (data_length_reads hdr))
    else None.
Proof.
  unfold default_settings_of. rewrite !lookup_insert, lookup_empty.
  repeat case_decide; congruence.
Qed.

(** With the default settings of a header the scalar-channel coercion
    cannot fail: a scalar can only have come from the user. *)
Lemma wrap_scalar_default hdr du :
  wrap_scalar du (overrides du (default_settings_of hdr)
                    (elements (dom (default_settings_of hdr))))
  = (inr tt,
     match du !! "channels_to_read" with
     | Some (VInt n) =>
         <["channels_to_read" := VList [VInt n]]>
           (overrides du (default_settings_of hdr)
              (elements (dom (default_settings_of hdr))))
     | _ => overrides du (default_settings_of hdr)
              (elements (dom (default_settings_of hdr)))
     end).
Proof.
  unfold wrap_scalar. rewrite lookup_overrides_dom, lookup_default_settings.
  cbn. destruct (du !! "channels_to_read") as [[]|]; reflexivity.
Qed.

End PairFacts.

Section PlanFacts.

Context {num : Type} `{!PyFloat num}.

Implicit Types (h : heap num) (du dd m : dict num) (l u d : loc)
  (out : list message) (hdr : DigHeader num) (p q : exclusive_pair).

Lemma resolve_passes hdr du :
  (∀ p, passes hdr du p) →
  resolve hdr du (default_settings_of hdr) = (inr tt, resolved_plan hdr du).
Proof.
  intros Hp. rewrite resolve_blocks. unfold bindM, resolved_plan.
  rewrite wrap_scalar_default. cbn [snd].
  rewrite (pair_block_passes _ _ StartPair _ (Hp StartPair)).
  rewrite (pair_block_passes _ _ EndPair _ (Hp EndPair)).
  rewrite (pair_block_passes _ _ FrequencyPair _ (Hp FrequencyPair)).
  reflexivity.
Qed.

Lemma lookup_converted hdr du p m k :
  converted hdr du p m !! k
  = if decide (read_key p = k) then
      match du !! conv_key p with
      | Some v => match pair_conv hdr p v with
                  | inr r => Some (VInt r)
                  | inl _ => m !! k
                  end
      | None => m !! k
      end
    else m !! k.
Proof.
  unfold converted.
  destruct (du !! conv_key p) as [v|]; [|now case_decide].
  destruct (pair_conv hdr p v) as [e|r]; [now case_decide|].
  apply lookup_insert.
Qed.

Lemma lookup_wrapped hdr du k :
  (wrap_scalar du (overrides du (default_settings_of hdr)
                     (elements (dom (default_settings_of hdr))))).2 !! k
  = if decide (k = "channels_to_read") then
      Some (match du !! "channels_to_read" with
            | Some (VInt n) => VList [VInt n]
            | Some v => v
            | None => VList (VInt <$> channel_list hdr)
            end)
    else match default_settings_of hdr !! k with
         | Some x => Some (default x (du !! k))
         | None => None
         end.
Proof.
  rewrite wrap_scalar_default. cbn [snd].
  case_decide as Hk.
  - subst k.
    destruct (du !! "channels_to_read") as [[]|] eqn:Ec;
      rewrite ?lookup_insert_eq, ?lookup_overrides_dom, ?lookup_default_settings, ?Ec;
      reflexivity.
  - destruct (du !! "channels_to_read") as [[]|] eqn:Ec;
      rewrite ?lookup_insert_ne by congruence;
      apply lookup_overrides_dom.
Qed.

(** The read-domain field of a pair in the resolved plan. *)
Lemma lookup_resolved_read hdr du p :
  resolved_plan hdr du !! read_key p
  = match du !! conv_key p with
    | Some v => match pair_conv hdr p v with
                | inr r => Some (VInt r)
                | inl _ => Some (default (default_read hdr p) (du !! read_key p))
                end
    | None => Some (default (default_read hdr p) (du !! read_key p))
    end.
Proof.
  unfold resolved_plan. rewrite !lookup_converted, lookup_wrapped, lookup_default_settings.
  destruct p; cbn [read_key conv_key default_read pair_conv];
    repeat case_decide; try congruence;
    repeat match goal with
      | |- context [match du !! ?k with _ => _ end] => destruct (du !! k)
      | |- context [match ?c hdr ?a with _ => _ end] => destruct (c hdr a)
      end; reflexivity.
Qed.

Lemma lookup_resolved_channels hdr du :
  resolved_plan hdr du !! "channels_to_read"
  = Some (match du !! "channels_to_read" with
          | Some (VInt n) => VList [VInt n]
          | Some v => v
          | None => VList (VInt <$> channel_list hdr)
          end).
Proof.
  unfold resolved_plan. rewrite !lookup_converted, lookup_wrapped.
  cbn [read_key]. repeat case_decide; congruence.
Qed.

Lemma resolved_plan_keys hdr du k :
  is_Some (resolved_plan hdr du !! k) ↔ k ∈ plan_keys.
Proof.
  assert (Hk : k ∈ plan_keys ↔
               k = "downsample" ∨ k = "channels_to_read" ∨ k = "start_read" ∨ k = "end_read").
  { unfold plan_keys. rewrite !elem_of_cons, elem_of_nil. tauto. }
  rewrite Hk. split.
  - intros Hs.
    destruct (decide (k = "downsample")) as [|H1]; [tauto|].
    destruct (decide (k = "channels_to_read")) as [|H2]; [tauto|].
    destruct (decide (k = "start_read")) as [|H3]; [tauto|].
    destruct (decide (k = "end_read")) as [|H4]; [tauto|].
    exfalso. revert Hs. unfold resolved_plan.
    rewrite !lookup_converted, lookup_wrapped, lookup_default_settings.
    cbn [read_key]. repeat (rewrite decide_False by congruence).
    intros [? ?]; discriminate.
  - intros [-> | [-> | [-> | ->]]].
    + change "downsample" with (read_key FrequencyPair).
      rewrite lookup_resolved_read. repeat case_match; eauto.
    + rewrite lookup_resolved_channels. eauto.
    + change "start_read" with (read_key StartPair).
      rewrite lookup_resolved_read. repeat case_match; eauto.
    + change "end_read" with (read_key EndPair).
      rewrite lookup_resolved_read. repeat case_match; eauto.
Qed.

(** Known keys without a colliding pair are a proper subset of the
    known keys. *)
Lemma known_without_collision_proper du :
  dom du ⊆ list_to_set known_keys → ¬ collides du StartPair →
  dom du ⊂ list_to_set known_keys.
Proof.
  intros Hsub Hnc. split; [exact Hsub|].
  intros Hsup. apply Hnc. split; apply Hsup, elem_of_list_to_set; cbn;
    unfold known_keys; rewrite !elem_of_cons; tauto.
Qed.

End PlanFacts.

Section ResolutionClaims.

Context {num : Type} `{!PyFloat num}.

Implicit Types (h : heap num) (du dd m plan : dict num) (l u d : loc)
  (out : list message) (hdr : DigHeader num) (p q : exclusive_pair).

(** Resolution of settings whose pairs all pass: the plan is built in a
    fresh dictionary. *)
Lemma resolution_succeeds hdr h out u d du :
  h !! u = Some du →
  h !! d = Some (default_settings_of hdr) →
  dom du ⊆ list_to_set known_keys →
  (∀ p, passes hdr du p) →
  define_read_settings known_keys hdr (VDict u) d (St h out)
  = (inr (fresh (dom h)), St (<[fresh (dom h) := resolved_plan hdr du]> h) out).
Proof.
  intros Eu Ed Hknown Hpass.
  rewrite (run_define_read_settings _ _ _ _ _ _ Eu).
  rewrite bool_decide_eq_true_2
    by (apply known_without_collision_proper; [exact Hknown | apply Hpass]).
  cbv zeta. rewrite (deref_Some _ _ _ Ed), (resolve_passes _ _ Hpass). reflexivity.
Qed.

(** The outcome of a resolution that passes the key check. *)
Lemma resolution_outcome hdr h out u d du dd :
  h !! u = Some du →
  h !! d = Some dd →
  dom du ⊂ list_to_set known_keys →
  (define_read_settings known_keys hdr (VDict u) d (St h out)).1
  = match (resolve hdr du dd).1 with
    | inl e => inl e
    | inr _ => inr (fresh (dom h))
    end.
Proof.
  intros Eu Ed Hsub.
  rewrite (run_define_read_settings _ _ _ _ _ _ Eu).
  rewrite bool_decide_eq_true_2 by exact Hsub.
  cbv zeta. now rewrite (deref_Some _ _ _ Ed).
Qed.

(** C2 (amended): for every user settings mapping whose keys are known
    keys, that holds no mutually exclusive pair and whose time and
    frequency settings convert without error, resolution succeeds and
    returns, in a fresh dictionary, a plan with exactly the four fields
    [downsample], [channels_to_read], [start_read] and [end_read].  A
    field converted from [start_time], [end_time] or [max_frequency] is
    an integer; otherwise the field is the value the user supplied for
    it, unchanged and of whatever type, or the default when none was
    supplied, except that an integer [channels_to_read] becomes a
    one-element list.  So the read and downsample fields are integers
    when the values supplied for them are, and [channels_to_read] is a
    list when the value supplied for it is an integer or a list. *)
Theorem C2_plan_resolved hdr h out u d du :
  h !! u = Some du →
  h !! d = Some (default_settings_of hdr) →
  dom du ⊆ list_to_set known_keys →
  (∀ p, ¬ collides du p) →
  (∀ p v, du !! conv_key p = Some v → ∃ r, pair_conv hdr p v = ok r) →
  ∃ plan,
    define_read_settings known_keys hdr (VDict u) d (St h out)
    = (inr (fresh (dom h)), St (<[fresh (dom h) := plan]> h) out)
    ∧ (∀ k, is_Some (plan !! k) ↔ k ∈ plan_keys)
    ∧ (∀ p v, du !! conv_key p = Some v →
              ∃ r, pair_conv hdr p v = ok r ∧ plan !! read_key p = Some (VInt r))
    ∧ (∀ p, du !! conv_key p = None →
            plan !! read_key p = Some (default (default_read hdr p) (du !! read_key p)))
    ∧ plan !! "channels_to_read"
      = Some (match du !! "channels_to_read" with
              | Some (VInt n) => VList [VInt n]
              | Some v => v
              | None => VList (VInt <$> channel_list hdr)
              end)
    ∧ (∀ p, (∀ v, du !! read_key p = Some v → ∃ n, v = VInt n) →
            is_int plan (read_key p))
    ∧ ((∀ v, du !! "channels_to_read" = Some v → (∃ n, v = VInt n) ∨ (∃ vs, v = VList vs)) →
       is_sequence plan "channels_to_read").
Proof.
  intros Eu Ed Hknown Hnc Hconv.
  assert (Hpass : ∀ p, passes hdr du p) by (intros p; split; [apply Hnc | apply Hconv]).
  exists (resolved_plan hdr du).
  assert (Hread_conv : ∀ p v, du !! conv_key p = Some v →
            ∃ r, pair_conv hdr p v = ok r
                 ∧ resolved_plan hdr du !! read_key p = Some (VInt r)).
  { intros p v Hv. destruct (Hconv p v Hv) as [r Hr]. exists r. split; [exact Hr|].
    rewrite lookup_resolved_read, Hv, Hr. reflexivity. }
  assert (Hread_direct : ∀ p, du !! conv_key p = None →
            resolved_plan hdr du !! read_key p
            = Some (default (default_read hdr p) (du !! read_key p))).
  { intros p Hv. now rewrite lookup_resolved_read, Hv. }
  split; [|split; [|split; [|split; [|split; [|split]]]]].
  - now apply resolution_succeeds.
  - apply resolved_plan_keys.
  - exact Hread_conv.
  - exact Hread_direct.
  - apply lookup_resolved_channels.
  - intros p Hint. destruct (du !! conv_key p) as [v|] eqn:Ev.
    + destruct (Hread_conv p v Ev) as (r & _ & Hr). now exists r.
    + unfold is_int. rewrite (Hread_direct p Ev).
      destruct (du !! read_key p) as [v|] eqn:Er.
      * destruct (Hint v eq_refl) as [n ->]. now exists n.
      * destruct p; cbn; eauto.
  - intros Hseq. unfold is_sequence. rewrite lookup_resolved_channels.
    destruct (du !! "channels_to_read") as [v|] eqn:Ec; [|eauto].
    destruct (Hseq v eq_refl) as [[n ->]|[vs ->]]; eauto.
Qed.

(** C9 (amended): when the keys of the user's settings are a proper
    subset of the known keys and both members of a mutually exclusive
    pair are among them, resolution fails with the
    [DigReadSettingError] naming that pair, provided every pair the
    resolver examines before it (in the order start, end, frequency)
    passes: it does not collide, and its time setting, when given,
    converts.  The heap keeps its dictionaries. *)
Theorem C9_colliding_pair_rejected hdr h out u d du p :
  h !! u = Some du →
  h !! d = Some (default_settings_of hdr) →
  dom du ⊂ list_to_set known_keys →
  collides du p →
  (∀ q, earlier q p → passes hdr du q) →
  ∃ s',
    define_read_settings known_keys hdr (VDict u) d (St h out)
    = (inl (DigReadSettingError (plain (pair_message p))), s')
    ∧ ∀ l x, h !! l = Some x → obj s' !! l = Some x.
Proof.
  intros Eu Ed Hsub Hc Hearlier.
  rewrite (run_define_read_settings _ _ _ _ _ _ Eu).
  rewrite bool_decide_eq_true_2 by exact Hsub. cbv zeta.
  rewrite (deref_Some _ _ _ Ed).
  eexists. split.
  - f_equal. rewrite resolve_blocks. unfold bindM.
    rewrite wrap_scalar_default.
    destruct p.
    + rewrite (pair_block_collides _ _ StartPair _ Hc). reflexivity.
    + rewrite (pair_block_passes _ _ StartPair _ (Hearlier StartPair I)).
      rewrite (pair_block_collides _ _ EndPair _ Hc). reflexivity.
    + rewrite (pair_block_passes _ _ StartPair _ (Hearlier StartPair I)).
      rewrite (pair_block_passes _ _ EndPair _ (Hearlier EndPair I)).
      rewrite (pair_block_collides _ _ FrequencyPair _ Hc). reflexivity.
  - intros l x Hl. cbn [cfg obj]. rewrite lookup_insert_ne; [exact Hl|].
    intros <-. pose proof (is_fresh (dom h)) as Hf.
    apply Hf, elem_of_dom. now rewrite Hl.
Qed.

End ResolutionClaims.

Lemma no_collision_without_conv (du : dict float) :
  (∀ p, du !! conv_key p = None) → ∀ p, ¬ collides du p.
Proof.
  intros Hnone p [Hc _]. apply elem_of_dom in Hc as [v Hv].
  rewrite Hnone in Hv. discriminate Hv.
Qed.

(** C2 (counterexample): the settings [{"downsample": "fast"}] resolve,
    and the plan's [downsample] is the string, not an integer. *)
Lemma C2_counterexample_untyped_value : ¬ resolution_always_typed.
Proof.
  intros H.
  destruct (H hdr1000 (session_heap hdr1000 settings_fast) [] 0%nat 1%nat settings_fast)
    as (l & s' & plan & Hrun & Hplan & [n Hn] & _).
  - reflexivity.
  - reflexivity.
  - refine (bool_decide_unpack _ _). vm_compute. exact I.
  - apply no_collision_without_conv. intros []; reflexivity.
  - rewrite (resolution_succeeds hdr1000 _ [] 0%nat 1%nat settings_fast) in Hrun.
    + injection Hrun as <- <-. cbn [obj] in Hplan.
      rewrite lookup_insert_eq in Hplan. apply (inj Some) in Hplan. subst plan.
      change "downsample" with (read_key FrequencyPair) in Hn.
      rewrite lookup_resolved_read in Hn. cbn [conv_key read_key] in Hn.
      assert (settings_fast !! "max_frequency" = None) as E1 by reflexivity.
      assert (settings_fast !! "downsample" = Some (VStr "fast")) as E2 by reflexivity.
      rewrite E1, E2 in Hn. discriminate Hn.
    + reflexivity.
    + reflexivity.
    + refine (bool_decide_unpack _ _). vm_compute. exact I.
    + intros p. split.
      * apply no_collision_without_conv. intros []; reflexivity.
      * intros v Hv. destruct p; discriminate Hv.
Qed.

(** C9 (counterexample): with [{"start_time": "soon", "end_time": 1,
    "end_read": 2}] the conversion of [start_time] raises [TypeError]
    before the end pair is examined. *)
Lemma C9_counterexample_type_error : ¬ collision_always_signalled.
Proof.
  intros H.
  destruct (H hdr1000 (session_heap hdr1000 settings_soon) [] 0%nat 1%nat settings_soon EndPair)
    as (q & s' & _ & Hrun).
  - reflexivity.
  - reflexivity.
  - split; apply elem_of_dom; vm_compute; eauto.
  - apply (f_equal fst) in Hrun. cbn [fst] in Hrun.
    rewrite (resolution_outcome hdr1000 _ [] 0%nat 1%nat settings_soon
               (default_settings_of hdr1000)) in Hrun.
    + assert ((resolve hdr1000 settings_soon (default_settings_of hdr1000)).1
              = inl TypeError) as E by (vm_compute; reflexivity).
      rewrite E in Hrun. discriminate Hrun.
    + reflexivity.
    + reflexivity.
    + refine (bool_decide_unpack _ _). vm_compute. exact I.
Qed.

(** C2 (witness): [{"start_time": 0.0015, "channels_to_read": 5}] on a
    1000 Hz file. *)
Lemma C2_plan_resolved_witness :
  ∃ plan : dict float,
    define_read_settings known_keys hdr1000 (VDict 0%nat) 1%nat
      (St (session_heap hdr1000 settings_scalar) [])
    = (inr (fresh (dom (session_heap hdr1000 settings_scalar))),
       St (<[fresh (dom (session_heap hdr1000 settings_scalar)) := plan]>
             (session_heap hdr1000 settings_scalar)) [])
    ∧ plan !! "start_read" = Some (VInt 2)
    ∧ plan !! "channels_to_read" = Some (VList [VInt 5])
    ∧ is_int plan "downsample" ∧ is_int plan "end_read".
Proof.
  destruct (C2_plan_resolved hdr1000 (session_heap hdr1000 settings_scalar) []
              0%nat 1%nat settings_scalar)
    as (plan & Hrun & _ & Hconv & _ & Hchan & Hint & _).
  - reflexivity.
  - reflexivity.
  - refine (bool_decide_unpack _ _). vm_compute. exact I.
  - intros p [Hc Hr]. apply elem_of_dom in Hr as [v Hv].
    destruct p; vm_compute in Hv; discriminate Hv.
  - intros p v Hv.
    destruct p; vm_compute in Hv; try discriminate Hv.
    injection Hv as <-. exists 2. vm_compute. reflexivity.
  - exists plan. split; [exact Hrun|]. split; [|split; [|split]].
    + destruct (Hconv StartPair (VFloat 0x1.89374bc6a7efap-10%float) eq_refl)
        as (r & Hr & Hp).
      vm_compute in Hr. injection Hr as <-. exact Hp.
    + exact Hchan.
    + apply (Hint FrequencyPair). intros v Hv. vm_compute in Hv. discriminate Hv.
    + apply (Hint EndPair). intros v Hv. vm_compute in Hv. discriminate Hv.
Defined.

(** C9 (witness): [{"start_time": 0.0015, "end_time": 1, "end_read": 2}]
    on a 1000 Hz file; the start pair passes and the end pair collides. *)
Lemma C9_colliding_pair_rejected_witness :
  ∃ s',
    define_read_settings known_keys hdr1000 (VDict 0%nat) 1%nat
      (St (session_heap hdr1000 settings_end_twice) [])
    = (inl (DigReadSettingError (plain only_one_end)), s')
    ∧ ∀ l x, session_heap hdr1000 settings_end_twice !! l = Some x →
             obj s' !! l = Some x.
Proof.
  apply (C9_colliding_pair_rejected hdr1000 (session_heap hdr1000 settings_end_twice) []
           0%nat 1%nat settings_end_twice EndPair).
  - reflexivity.
  - reflexivity.
  - refine (bool_decide_unpack _ _). vm_compute. exact I.
  - split; apply elem_of_dom; vm_compute; eauto.
  - intros q Hq. destruct q; try contradiction. split.
    + intros [_ Hr]. apply elem_of_dom in Hr as [v Hv]. vm_compute in Hv. discriminate Hv.
    + intros v Hv. vm_compute in Hv. injection Hv as <-. exists 2. vm_compute. reflexivity.
Defined.

(** C10 (witness): the same settings; the resolution fails and both
    dictionaries of the session are as before. *)
Lemma C10_inputs_not_mutated_witness :
  let h := session_heap hdr1000 settings_end_twice in
  let run := define_read_settings known_keys hdr1000 (VDict 0%nat) 1%nat (St h []) in
  (∀ l x, h !! l = Some x → obj run.2 !! l = Some x)
  ∧ (∀ l, run.1 = inr l → h !! l = None ∧ is_Some (obj run.2 !! l)).
Proof.
  apply (C10_inputs_not_mutated hdr1000 (session_heap hdr1000 settings_end_twice) []
           (VDict 0%nat) 1%nat).
  intros u Hu. injection Hu as <-. eexists. reflexivity.
Defined.

(** ** The channel accessor *)

Section AccessorClaims.

Context {num : Type} {raw : Type} (cast : raw → float).

Implicit Types (p : platform) (self : DigAccess (num := num) (raw := raw))
  (out : list message) (chn : Z).

(** C4: a channel that is not in the reader's [channels_to_read] is
    refused with a [KeyError] whose message carries the requested
    channel and the whole [channel_list] and [channel_names] of the
    header, whatever subset was requested; when [channels_to_read]
    cannot be iterated the accessor raises [DigReadSettingError]
    instead.  Neither failure touches the session. *)
Theorem C4_channel_rejected p self out chn :
  (∀ chans, channels_to_read (read self) = Channels chans → chn ∉ chans →
     channel cast p chn (St self out)
     = (inl (KeyError
               (Message "Invalid channel: {} has not been read Channel numbers available for this file are {} corresponding to channels {}"
                        [FChan chn; FChans (channel_list (header self));
                         FNames (channel_names (header self))])),
        St self out))
  ∧ (channels_to_read (read self) = NotIterable →
     channel cast p chn (St self out)
     = (inl (DigReadSettingError not_iterable), St self out)).
Proof.
  split.
  - intros chans Hc Hnot. unfold channel, bindM, try_except, get_obj, lift. cbn [obj].
    rewrite Hc. cbn [contains ok].
    rewrite bool_decide_eq_false_2 by exact Hnot. reflexivity.
  - intros Hc. unfold channel, bindM, try_except, get_obj, lift. cbn [obj].
    rewrite Hc. reflexivity.
Qed.

End AccessorClaims.

(** ** The data assembler *)

Section AssemblerFacts.

Context {num : Type} {raw : Type} (cast : raw → float).

Implicit Types (p : platform) (self : DigAccess (num := num) (raw := raw))
  (out : list message) (chn c : Z) (x : float) (seg : segment (raw := raw))
  (segs : list (segment (raw := raw))).

Lemma set_internal_data_dict_same self :
  set_internal_data_dict (_internal_data_dict self) self = self.
Proof. now destruct self. Qed.

(** The division of two integers raises [ZeroDivisionError] or
    [OverflowError] and nothing else. *)
Lemma truediv_errors (a b : Z) (e : exn) :
  truediv a b = err e → e = ZeroDivisionError ∨ e = OverflowError.
Proof.
  unfold truediv. destruct (b =? 0).
  - intros H. injection H as <-. now left.
  - destruct (SFdiv prec emax (raw_int a) (raw_int b)); intros H;
      try discriminate H; injection H as <-; now right.
Qed.

(** [allocate_data_dict] when the division raises. *)
Lemma run_allocate_err p self out e :
  truediv (settings_end_read (read self) - settings_start_read (read self))
          (downsample (read self)) = err e →
  allocate_data_dict p (St self out) = (inl e, St self out).
Proof.
  intros Hdiv. unfold allocate_data_dict, bindM, get_obj, lift. cbn [obj].
  now rewrite Hdiv.
Qed.

(** [allocate_data_dict] when the division returns: the length is a
    float, which [np.zeros] refuses for the first channel; only a plan
    without a channel never calls [np.zeros]. *)
Lemma run_allocate p self out x :
  truediv (settings_end_read (read self) - settings_start_read (read self))
          (downsample (read self)) = ok x →
  allocate_data_dict p (St self out)
  = match channels_to_read (read self) with
    | Channels [] => (inr tt, St (set_internal_data_dict ∅ self) out)
    | _ => (inl TypeError, St self out)
    end.
Proof.
  intros Hdiv. unfold allocate_data_dict, bindM, try_except, get_obj, lift. cbn [obj].
  rewrite Hdiv. unfold ok.
  destruct (channels_to_read (read self)) as [[|c chans]|]; reflexivity.
Qed.

(** [load_data_dict] is [allocate_data_dict] followed by the loop over
    the segments. *)
Lemma load_after_allocate_ok p self out self' out' :
  allocate_data_dict p (St (count_load self) out) = (inr tt, St self' out') →
  load_data_dict cast p (St self out)
  = load_segments cast 0 None 0 (data_segments (read self')) (St self' out').
Proof.
  intros Ha. unfold load_data_dict. unfold bindM at 1, modify_obj at 1. cbn [obj stdout].
  unfold bindM at 1. rewrite Ha. reflexivity.
Qed.

Lemma load_after_allocate_err p self out e self' out' :
  allocate_data_dict p (St (count_load self) out) = (inl e, St self' out') →
  load_data_dict cast p (St self out) = (inl e, St self' out').
Proof.
  intros Ha. unfold load_data_dict. unfold bindM at 1, modify_obj at 1. cbn [obj stdout].
  unfold bindM at 1. now rewrite Ha.
Qed.

(** The loop over the segments on an empty store: with no segment it
    does nothing, and the first segment fails, at its first channel or,
    when it holds none, at the unbound [length]. *)
Lemma load_segments_empty_store self out segs count :
  _internal_data_dict self = ∅ →
  load_segments cast 0 None count segs (St self out)
  = match segs with
    | [] => (inr tt, St self out)
    | [] :: _ => (inl (UnboundLocalError "length"), St self out)
    | ((c, _) :: _) :: _ => (inl (KeyError (Message "{}" [FChan c])), St self out)
    end.
Proof.
  intros Hempty. destruct segs as [|[|[c run] seg] rest]; [reflexivity|reflexivity|].
  cbn [load_segments load_segment].
  unfold bindM at 1. unfold bindM at 1, get_obj at 1. cbn [obj].
  now rewrite Hempty, lookup_empty.
Qed.

(** [load_data_dict] of a plan with a channel: the [TypeError] of
    [np.zeros] ends it before a segment is read. *)
Lemma load_float_length p self out c (chans : list Z) x :
  channels_to_read (read self) = Channels (c :: chans) →
  truediv (settings_end_read (read self) - settings_start_read (read self))
          (downsample (read self)) = ok x →
  load_data_dict cast p (St self out) = (inl TypeError, St (count_load self) out).
Proof.
  intros Hc Hdiv. apply load_after_allocate_err.
  rewrite (run_allocate p (count_load self) out x Hdiv).
  change (read (count_load self)) with (read self). now rewrite Hc.
Qed.

(** [data_dict] on a store not assembled yet, when [load_data_dict]
    fails. *)
Lemma data_dict_load_error p self out e s' :
  _internal_data_dict self = ∅ →
  load_data_dict cast p (St self out) = (inl e, s') →
  data_dict cast p (St self out) = (inl e, s').
Proof.
  intros Hempty Hload. unfold data_dict. unfold bindM at 1, get_obj at 1. cbn [obj].
  rewrite Hempty, bool_decide_eq_true_2 by reflexivity.
  unfold bindM at 1. now rewrite Hload.
Qed.

(** A non-empty store is returned as it is: nothing is loaded and the
    session does not change. *)
Lemma data_dict_cached p self out :
  _internal_data_dict self ≠ ∅ →
  data_dict cast p (St self out) = (inr (_internal_data_dict self), St self out).
Proof.
  intros Hne. unfold data_dict, bindM, get_obj. cbn [obj].
  now rewrite bool_decide_eq_false_2.
Qed.

(** With no channel in the plan and no segment the store stays empty,
    so every access assembles again. *)
Lemma data_dict_empty_plan p self out x :
  channels_to_read (read self) = Channels [] →
  data_segments (read self) = [] →
  truediv (settings_end_read (read self) - settings_start_read (read self))
          (downsample (read self)) = ok x →
  _internal_data_dict self = ∅ →
  data_dict cast p (St self out)
  = (inr ∅, St (set_internal_data_dict ∅ (count_load self)) out).
Proof.
  intros Hc Hs Hdiv He.
  unfold data_dict. unfold bindM at 1, get_obj at 1. cbn [obj].
  rewrite He, bool_decide_eq_true_2 by reflexivity.
  assert (Hload : load_data_dict cast p (St self out)
                  = (inr tt, St (set_internal_data_dict ∅ (count_load self)) out)).
  { rewrite (load_after_allocate_ok p self out (set_internal_data_dict ∅ (count_load self)) out).
    - cbn [read set_internal_data_dict]. change (read (count_load self)) with (read self).
      now rewrite Hs.
    - rewrite (run_allocate p (count_load self) out x Hdiv).
      change (read (count_load self)) with (read self). now rewrite Hc. }
  unfold bindM at 1. rewrite Hload. reflexivity.
Qed.

(** The accessor on a channel of the plan passes on what [data_dict]
    raises, a [TypeError] apart. *)
Lemma channel_error p self out (chans : list Z) chn e s' :
  channels_to_read (read self) = Channels chans →
  chn ∈ chans →
  data_dict cast p (St self out) = (inl e, s') →
  e ≠ TypeError →
  channel cast p chn (St self out) = (inl e, s').
Proof.
  intros Hc Hin Hd He. unfold channel.
  unfold bindM at 1, get_obj at 1. cbn [obj].
  unfold bindM at 1, try_except. unfold bindM at 1, lift at 1.
  rewrite Hc. cbn [contains ok]. rewrite bool_decide_eq_true_2 by exact Hin.
  unfold bindM at 1. rewrite Hd.
  destruct e; try reflexivity. contradiction.
Qed.


End AssemblerFacts.

(** C3 (the code at the failing input): the plan of ten reads of the
    channels A and B, whose reader yields segments of 4, 4 and 2 reads.
    The length [10 / 1] is the float [10.0], which [np.zeros] refuses:
    [load_data_dict] and [data_dict] raise [TypeError] before a segment
    is read, the accessor reports it as the [DigReadSettingError] about
    [channels_to_read], and no array is assembled. *)
Theorem C3_assembly_stops_at_allocation :
  truediv 10 1 = ok 10%float
  ∧ load_data_dict of_int64 numpy64 (St (session_over reader_ab) [])
    = (inl TypeError, St (count_load (session_over reader_ab)) [])
  ∧ data_dict of_int64 numpy64 (St (session_over reader_ab) [])
    = (inl TypeError, St (count_load (session_over reader_ab)) [])
  ∧ channel of_int64 numpy64 0 (St (session_over reader_ab) [])
    = (inl (DigReadSettingError not_iterable), St (count_load (session_over reader_ab)) [])
  ∧ _internal_data_dict (count_load (session_over reader_ab)) = ∅.
Proof. repeat split; vm_compute; reflexivity. Qed.


(** C5 (the code at the failing input): with an empty
    [channels_to_read] the assembled store is the empty dictionary,
    which [data_dict] takes for a store not assembled yet: the second
    access runs [load_data_dict] again. *)
Theorem C5_empty_plan_reassembled :
  let first := data_dict of_int64 numpy64 (St (session_over reader_empty) []) in
  let second := data_dict of_int64 numpy64 first.2 in
  first.1 = inr ∅ ∧ load_count (obj first.2) = 1%nat
  ∧ second.1 = inr ∅ ∧ load_count (obj second.2) = 2%nat.
Proof. repeat split; vm_compute; reflexivity. Qed.

(** * Further properties of the assembler *)

Section AssemblerEdges.

Context {num : Type} {raw : Type} (cast : raw → float).

Implicit Types (p : platform) (self : DigAccess (num := num) (raw := raw))
  (out : list message) (chn c : Z) (x : float) (seg : segment (raw := raw))
  (segs : list (segment (raw := raw))).

(** X1: for every plan with at least one channel whose length division
    returns, [allocate_data_dict] raises the [TypeError] of [np.zeros]
    on a float length, prints nothing and leaves the session as it was;
    [load_data_dict] raises it before reading a segment, whatever the
    reader would deliver, and [data_dict] passes it on. *)
Theorem X1_float_length_refused p self out c (chans : list Z) x :
  channels_to_read (read self) = Channels (c :: chans) →
  truediv (settings_end_read (read self) - settings_start_read (read self))
          (downsample (read self)) = ok x →
  allocate_data_dict p (St self out) = (inl TypeError, St self out)
  ∧ load_data_dict cast p (St self out) = (inl TypeError, St (count_load self) out)
  ∧ (_internal_data_dict self = ∅ →
     data_dict cast p (St self out) = (inl TypeError, St (count_load self) out)).
Proof.
  intros Hc Hdiv. split; [|split].
  - rewrite (run_allocate p self out x Hdiv). now rewrite Hc.
  - exact (load_float_length cast p self out c chans x Hc Hdiv).
  - intros Hempty. apply data_dict_load_error; [exact Hempty|].
    exact (load_float_length cast p self out c chans x Hc Hdiv).
Qed.



(** X4: [allocate_data_dict] never raises [MemoryError] or
    [ValueError] and never prints: its two handlers are not reached,
    for any session.  It leaves the store as it was or, for a plan
    without a channel, empty. *)
Theorem X4_capacity_handlers_unreachable p self out :
  ∃ r self',
    allocate_data_dict p (St self out) = (r, St self' out)
    ∧ r ≠ inl MemoryError
    ∧ r ≠ inl ValueError
    ∧ (_internal_data_dict self' = _internal_data_dict self
       ∨ _internal_data_dict self' = ∅).
Proof.
  destruct (truediv (settings_end_read (read self) - settings_start_read (read self))
              (downsample (read self))) as [e|x] eqn:Hdiv.
  - exists (inl e), self. rewrite (run_allocate_err p self out e Hdiv).
    destruct (truediv_errors _ _ _ Hdiv) as [-> | ->];
      repeat split; try discriminate; now left.
  - rewrite (run_allocate p self out x Hdiv).
    destruct (channels_to_read (read self)) as [[|c chans]|].
    + exists (inr tt), (set_internal_data_dict ∅ self).
      repeat split; try discriminate. now right.
    + exists (inl TypeError), self. repeat split; try discriminate. now left.
    + exists (inl TypeError), self. repeat split; try discriminate. now left.
Qed.

(** X6: a plan whose downsample factor is zero makes the array length a
    division by zero: [allocate_data_dict], [load_data_dict],
    [data_dict] and [channel] on a channel of the plan raise
    [ZeroDivisionError], nothing is printed and the store is left as it
    was. *)
Theorem X6_zero_downsample p self out :
  downsample (read self) = 0 →
  allocate_data_dict p (St self out) = (inl ZeroDivisionError, St self out)
  ∧ load_data_dict cast p (St self out) = (inl ZeroDivisionError, St (count_load self) out)
  ∧ (_internal_data_dict self = ∅ →
     data_dict cast p (St self out) = (inl ZeroDivisionError, St (count_load self) out)
     ∧ ∀ chans chn,
         channels_to_read (read self) = Channels chans →
         chn ∈ chans →
         channel cast p chn (St self out)
         = (inl ZeroDivisionError, St (count_load self) out)).
Proof.
  intros Hd.
  assert (Ha : ∀ s : DigAccess (num := num) (raw := raw),
             downsample (read s) = 0 →
             allocate_data_dict p (St s out) = (inl ZeroDivisionError, St s out)).
  { intros s Hs. apply run_allocate_err. now rewrite Hs. }
  assert (Hload : load_data_dict cast p (St self out)
                  = (inl ZeroDivisionError, St (count_load self) out)).
  { apply load_after_allocate_err. now apply Ha. }
  split; [now apply Ha|]. split; [exact Hload|].
  intros Hempty.
  pose proof (data_dict_load_error cast p self out _ _ Hempty Hload) as Hdd.
  split; [exact Hdd|].
  intros chans chn Hc Hin. now apply (channel_error cast p self out chans).
Qed.

(** X7: [load_data_dict] never stores an array.  It returns normally
    only for a plan without a channel whose reader yields no segment,
    and then the store is empty; and whatever it does, a store that was
    empty is empty afterwards. *)
Theorem X7_store_stays_empty p self out :
  let run := load_data_dict cast p (St self out) in
  (run.1 = inr tt →
   channels_to_read (read self) = Channels []
   ∧ data_segments (read self) = []
   ∧ _internal_data_dict (obj run.2) = ∅)
  ∧ (_internal_data_dict self = ∅ → _internal_data_dict (obj run.2) = ∅).
Proof.
  cbv zeta.
  destruct (truediv (settings_end_read (read self) - settings_start_read (read self))
              (downsample (read self))) as [e|x] eqn:Hdiv.
  - rewrite (load_after_allocate_err cast p self out e (count_load self) out)
      by now apply run_allocate_err.
    split; [intros H; discriminate H | intros H; exact H].
  - pose proof (run_allocate p (count_load self) out x Hdiv) as Ha.
    change (read (count_load self)) with (read self) in Ha.
    destruct (channels_to_read (read self)) as [[|c chans]|].
    + rewrite (load_after_allocate_ok cast p self out _ out Ha).
      cbn [read set_internal_data_dict]. change (read (count_load self)) with (read self).
      rewrite load_segments_empty_store by reflexivity.
      destruct (data_segments (read self)) as [|[|[c run] seg] rest]; cbn [fst snd obj].
      * repeat split.
      * split; [intros H; discriminate H | intros _; reflexivity].
      * split; [intros H; discriminate H | intros _; reflexivity].
    + rewrite (load_after_allocate_err cast p self out _ _ _ Ha).
      split; [intros H; discriminate H | intros H; exact H].
    + rewrite (load_after_allocate_err cast p self out _ _ _ Ha).
      split; [intros H; discriminate H | intros H; exact H].
Qed.



End AssemblerEdges.

(** * Further properties of the resolver *)

Section ResolverEdges.

Context {num : Type} `{!PyFloat num}.

Implicit Types (h : heap num) (du dd m plan : dict num) (l u d : loc)
  (out : list message) (hdr : DigHeader num) (p q : exclusive_pair).

(** The resolved plan when the key check passes and every pair
    passes, read off [resolved_plan] key by key. *)
Lemma resolved_plan_eq hdr du plan :
  (∀ p, resolved_plan hdr du !! read_key p = plan !! read_key p) →
  resolved_plan hdr du !! "channels_to_read" = plan !! "channels_to_read" →
  (∀ k, is_Some (plan !! k) → k ∈ plan_keys) →
  resolved_plan hdr du = plan.
Proof.
  intros Hread Hchan Hkeys. apply map_eq. intros k.
  destruct (decide (k ∈ plan_keys)) as [Hk|Hk].
  - unfold plan_keys in Hk. rewrite !elem_of_cons, elem_of_nil in Hk.
    destruct Hk as [-> | [-> | [-> | [-> | []]]]].
    + apply (Hread FrequencyPair).
    + exact Hchan.
    + apply (Hread StartPair).
    + apply (Hread EndPair).
  - destruct (resolved_plan hdr du !! k) as [v|] eqn:E1.
    + exfalso. apply Hk. apply (resolved_plan_keys hdr du). rewrite E1. eauto.
    + destruct (plan !! k) as [v|] eqn:E2; [|reflexivity].
      exfalso. apply Hk, Hkeys. rewrite E2. eauto.
Qed.

Lemma default_settings_keys hdr k :
  is_Some (default_settings_of hdr !! k) → k ∈ plan_keys.
Proof.
  rewrite lookup_default_settings. unfold plan_keys.
  rewrite !elem_of_cons, elem_of_nil.
  repeat case_decide; subst; intros [v Hv]; try discriminate Hv; tauto.
Qed.

(** With no setting given, resolution returns the default plan. *)
Lemma no_settings_resolve hdr h out u d :
  h !! u = Some ∅ →
  h !! d = Some (default_settings_of hdr) →
  define_read_settings known_keys hdr (VDict u) d (St h out)
  = (inr (fresh (dom h)), St (<[fresh (dom h) := default_settings_of hdr]> h) out).
Proof.
  intros Eu Ed.
  rewrite (resolution_succeeds hdr h out u d ∅ Eu Ed).
  - assert (resolved_plan hdr ∅ = default_settings_of hdr) as ->; [|reflexivity].
    apply resolved_plan_eq.
    + intros p. rewrite lookup_resolved_read, !lookup_empty, lookup_default_settings.
      now destruct p.
    + now rewrite lookup_resolved_channels, lookup_empty, lookup_default_settings.
    + apply default_settings_keys.
  - rewrite dom_empty_L. apply empty_subseteq.
  - intros p. split.
    + intros [Hc _]. rewrite dom_empty_L in Hc. now apply elem_of_empty in Hc.
    + intros v Hv. rewrite lookup_empty in Hv. discriminate Hv.
Qed.

(** X12: with no setting given, [__init__] resolves the default plan:
    every channel of the header, from read 0 to the last read of the
    file, downsample factor 1.  The plan is a dictionary of its own,
    apart from the dictionary of default settings, and both are new. *)
Theorem X12_no_settings_default_plan hdr h out u :
  h !! u = Some ∅ →
  ∃ d l,
    init_read_settings hdr (VDict u) (St h out)
    = (inr l,
       St (<[l := default_settings_of hdr]> (<[d := default_settings_of hdr]> h)) out)
    ∧ l ≠ d ∧ h !! d = None ∧ h !! l = None.
Proof.
  intros Eu. rewrite run_init_read_settings.
  remember (fresh (dom h)) as d eqn:Ed.
  assert (Hd : h !! d = None).
  { apply not_elem_of_dom. rewrite Ed. apply is_fresh. }
  assert (Hud : d ≠ u).
  { intros ->. rewrite Hd in Eu. discriminate Eu. }
  assert (Hrun := no_settings_resolve hdr (<[d := default_settings_of hdr]> h) out u d).
  pose proof (is_fresh (dom (<[d := default_settings_of hdr]> h))) as Hl.
  remember (fresh (dom (<[d := default_settings_of hdr]> h))) as l eqn:El.
  rewrite dom_insert_L in Hl.
  exists d, l. split; [|split; [|split; [exact Hd|]]].
  - apply Hrun.
    + now rewrite lookup_insert_ne.
    + apply lookup_insert_eq.
  - intros ->. apply Hl. apply elem_of_union_l. now apply elem_of_singleton.
  - apply not_elem_of_dom. intros Hin. apply Hl. now apply elem_of_union_r.
Qed.

(** Settings that give exactly the four fields of a plan, with a
    [channels_to_read] that is not an integer, resolve to themselves. *)
Lemma full_plan_resolve hdr h out u d du :
  h !! u = Some du →
  h !! d = Some (default_settings_of hdr) →
  dom du = list_to_set plan_keys →
  (∀ n, du !! "channels_to_read" ≠ Some (VInt n)) →
  define_read_settings known_keys hdr (VDict u) d (St h out)
  = (inr (fresh (dom h)), St (<[fresh (dom h) := du]> h) out).
Proof.
  intros Eu Ed Hdom Hchan.
  assert (Hkeys : ∀ k, is_Some (du !! k) ↔ k ∈ plan_keys).
  { intros k. now rewrite <- elem_of_dom, Hdom, elem_of_list_to_set. }
  assert (Hconv : ∀ p, du !! conv_key p = None).
  { intros p. destruct (du !! conv_key p) as [v|] eqn:E; [|reflexivity].
    assert (Hin : conv_key p ∈ plan_keys) by (apply Hkeys; rewrite E; eauto).
    unfold plan_keys in Hin. rewrite !elem_of_cons, elem_of_nil in Hin.
    destruct p; cbn in Hin; destruct Hin as [? | [? | [? | [? | []]]]]; discriminate. }
  assert (Hread : ∀ p, is_Some (du !! read_key p)).
  { intros p. apply Hkeys. unfold plan_keys. rewrite !elem_of_cons.
    destruct p; cbn; tauto. }
  rewrite (resolution_succeeds hdr h out u d du Eu Ed).
  - assert (resolved_plan hdr du = du) as ->; [|reflexivity].
    apply resolved_plan_eq.
    + intros p. rewrite lookup_resolved_read, Hconv.
      destruct (Hread p) as [v ->]. reflexivity.
    + rewrite lookup_resolved_channels.
      destruct (du !! "channels_to_read") as [v|] eqn:E.
      * destruct v; try reflexivity. now destruct (Hchan n).
      * exfalso. assert (Hs : is_Some (du !! "channels_to_read")).
        { apply Hkeys. unfold plan_keys. rewrite !elem_of_cons. tauto. }
        rewrite E in Hs. now destruct Hs.
    + intros k. apply Hkeys.
  - intros k Hk. apply elem_of_dom in Hk. apply Hkeys in Hk.
    apply elem_of_list_to_set. unfold plan_keys in Hk. unfold known_keys.
    rewrite !elem_of_cons, elem_of_nil in Hk. rewrite !elem_of_cons. tauto.
  - intros p. split.
    + intros [Hc _]. apply elem_of_dom in Hc. rewrite Hconv in Hc. now destruct Hc.
    + intros v Hv. rewrite Hconv in Hv. discriminate Hv.
Qed.

(** X13: settings that give exactly the four fields of a plan, with a
    [channels_to_read] that is not an integer, resolve to themselves:
    every default is overwritten and nothing is converted. *)
Theorem X13_full_plan_taken_as_is hdr h out u d du :
  h !! u = Some du →
  h !! d = Some (default_settings_of hdr) →
  dom du = list_to_set plan_keys →
  (∀ n, du !! "channels_to_read" ≠ Some (VInt n)) →
  define_read_settings known_keys hdr (VDict u) d (St h out)
  = (inr (fresh (dom h)), St (<[fresh (dom h) := du]> h) out).
Proof. apply full_plan_resolve. Qed.

(** X17: a resolved plan is a fixed point of resolution: given back as
    the user's settings, the plan that a successful resolution returned
    resolves to itself, in another new dictionary. *)
Theorem X17_resolved_plan_fixed_point hdr h out u d du :
  h !! u = Some du →
  h !! d = Some (default_settings_of hdr) →
  dom du ⊆ list_to_set known_keys →
  (∀ p, passes hdr du p) →
  ∃ l plan s',
    define_read_settings known_keys hdr (VDict u) d (St h out) = (inr l, s')
    ∧ obj s' !! l = Some plan
    ∧ ∃ l', define_read_settings known_keys hdr (VDict l) d s'
            = (inr l', St (<[l' := plan]> (obj s')) (stdout s'))
            ∧ l' ≠ l.
Proof.
  intros Eu Ed Hknown Hpass.
  rewrite (resolution_succeeds hdr h out u d du Eu Ed Hknown Hpass).
  pose proof (is_fresh (dom h)) as Hl.
  remember (fresh (dom h)) as l eqn:El.
  assert (Hdl : l ≠ d).
  { intros ->. apply Hl. apply elem_of_dom. rewrite Ed. eauto. }
  set (plan := resolved_plan hdr du).
  set (h' := <[l := plan]> h).
  exists l, plan, (St h' out). split; [reflexivity|].
  cbn [obj stdout]. split; [apply lookup_insert_eq|].
  exists (fresh (dom h')). split.
  - apply full_plan_resolve.
    + apply lookup_insert_eq.
    + unfold h'. now rewrite lookup_insert_ne.
    + apply set_eq. intros k.
      rewrite elem_of_dom, elem_of_list_to_set. apply resolved_plan_keys.
    + intros n. unfold plan. rewrite lookup_resolved_channels.
      destruct (du !! "channels_to_read") as [[ | | | | | ]|]; discriminate.
  - intros E. apply (is_fresh (dom h')). rewrite E.
    apply elem_of_dom. unfold h'. rewrite lookup_insert_eq. eauto.
Qed.

(** X11: settings that give all seven known keys are refused by the key
    check, which wants a proper subset of the known keys: the error is
    the unknown-keys error, and the list of unknown keys in its message
    is empty. *)
Theorem X11_all_known_keys_refused hdr h out u d du :
  h !! u = Some du →
  dom du = list_to_set known_keys →
  let warning :=
    Message "Keys {} are not known.  Available settings are {}"
            [FKeys []; FKeys known_keys] in
  define_read_settings known_keys hdr (VDict u) d (St h out)
  = (inl (DigReadSettingError warning), St h (out ++ [warning])).
Proof.
  intros Eu Hdom. cbv zeta.
  rewrite (run_define_read_settings _ _ _ _ _ _ Eu).
  rewrite bool_decide_eq_false_2.
  - cbv zeta. unfold unknown_keys_warning.
    rewrite Hdom, difference_diag_L, elements_empty. reflexivity.
  - rewrite Hdom. intros [_ Hne]. now apply Hne.
Qed.

End ResolverEdges.

Section ScalarChannels.

Context {num : Type} `{!PyFloat num}.

Implicit Types (h : heap num) (du dd m plan : dict num) (l u d : loc)
  (out : list message) (hdr : DigHeader num) (p q : exclusive_pair).

(** Settings that give [channels_to_read] as the integer [n] resolve as
    the settings that give it as the list of [n]. *)
Lemma resolve_scalar_channels hdr du dd n :
  du !! "channels_to_read" = Some (VInt n) →
  resolve hdr (<["channels_to_read" := VList [VInt n]]> du) dd = resolve hdr du dd.
Proof.
  intros Hc. set (du' := <["channels_to_read" := VList [VInt n]]> du).
  assert (Hdom : dom du' = dom du).
  { apply dom_insert_lookup_L. rewrite Hc. eauto. }
  assert (Hlook : ∀ k, k ≠ "channels_to_read" → du' !! k = du !! k).
  { intros k Hk. unfold du'. now rewrite lookup_insert_ne by congruence. }
  assert (Hpair : ∀ kconv kread msg conv m,
             kconv ≠ "channels_to_read" →
             convert_pair du' kconv kread msg conv m = convert_pair du kconv kread msg conv m).
  { intros kconv kread msg conv m Hk. unfold convert_pair.
    now rewrite (Hlook kconv Hk), Hdom. }
  assert (Hwrap : wrap_scalar du' (overrides du' dd (elements (dom dd)))
                  = wrap_scalar du (overrides du dd (elements (dom dd)))).
  { unfold wrap_scalar. rewrite !lookup_overrides_dom.
    unfold du' at 1 2. rewrite lookup_insert_eq, Hc.
    destruct (dd !! "channels_to_read") as [x|] eqn:Ed; cbn [default].
    - f_equal. apply map_eq. intros k.
      destruct (decide (k = "channels_to_read")) as [->|Hk].
      + rewrite lookup_insert_eq, lookup_overrides_dom, Ed.
        unfold du'. now rewrite lookup_insert_eq.
      + rewrite lookup_insert_ne by congruence.
        rewrite !lookup_overrides_dom. now rewrite (Hlook k Hk).
    - f_equal. apply map_eq. intros k. rewrite !lookup_overrides_dom.
      destruct (decide (k = "channels_to_read")) as [->|Hk].
      + now rewrite Ed.
      + now rewrite (Hlook k Hk). }
  unfold resolve, bindM. rewrite Hwrap.
  destruct (wrap_scalar du (overrides du dd (elements (dom dd)))) as [[e|[]] m1];
    [reflexivity|].
  rewrite (Hpair "start_time") by discriminate.
  destruct (convert_pair du "start_time" _ _ _ m1) as [[e|[]] m2]; [reflexivity|].
  rewrite (Hpair "end_time") by discriminate.
  destruct (convert_pair du "end_time" _ _ _ m2) as [[e|[]] m3]; [reflexivity|].
  now rewrite (Hpair "max_frequency") by discriminate.
Qed.

(** X10: a scalar [channels_to_read] resolves as the one-element list
    of it: with the integer replaced by the list in the user's
    settings, resolution has the same outcome, prints the same and
    returns the same plan. *)
Theorem X10_scalar_channel_as_list hdr h out u d du dd n :
  h !! u = Some du →
  h !! d = Some dd →
  u ≠ d →
  du !! "channels_to_read" = Some (VInt n) →
  let listed := <["channels_to_read" := VList [VInt n]]> du in
  let run := define_read_settings known_keys hdr (VDict u) d (St h out) in
  let run' := define_read_settings known_keys hdr (VDict u) d (St (<[u := listed]> h) out) in
  run'.1 = run.1
  ∧ stdout run'.2 = stdout run.2
  ∧ ∀ l, run.1 = inr l → obj run'.2 !! l = obj run.2 !! l.
Proof.
  intros Eu Ed Hne Hc listed run run'. subst run run'.
  assert (Eu' : <[u := listed]> h !! u = Some listed) by apply lookup_insert_eq.
  assert (Ed' : <[u := listed]> h !! d = Some dd) by now rewrite lookup_insert_ne.
  assert (Hdomh : dom (<[u := listed]> h) = dom h).
  { apply dom_insert_lookup_L. rewrite Eu. eauto. }
  assert (Hdom : dom listed = dom du).
  { apply dom_insert_lookup_L. rewrite Hc. eauto. }
  rewrite (run_define_read_settings _ _ _ _ _ _ Eu).
  rewrite (run_define_read_settings _ _ _ _ _ _ Eu').
  rewrite Hdom, Hdomh, (deref_Some _ _ _ Ed), (deref_Some _ _ _ Ed').
  assert (Hres : resolve hdr listed dd = resolve hdr du dd)
    by now apply resolve_scalar_channels.
  rewrite Hres.
  destruct (bool_decide (dom du ⊂ list_to_set known_keys)); cbv zeta; cbn [fst snd].
  - split; [reflexivity|]. split; [reflexivity|].
    intros l Hl. destruct (resolve hdr du dd).1; [discriminate Hl|].
    injection Hl as <-. cbn [cfg obj]. now rewrite !lookup_insert_eq.
  - split; [reflexivity|]. split; [reflexivity|]. intros l Hl. discriminate Hl.
Qed.

End ScalarChannels.

(** * Instances of the further properties *)

(** X1 (witness): the plan of ten reads of the channels A and B. *)
Lemma X1_float_length_refused_witness :
  allocate_data_dict numpy64 (St (session_over reader_ab) [])
  = (inl TypeError, St (session_over reader_ab) [])
  ∧ load_data_dict of_int64 numpy64 (St (session_over reader_ab) [])
    = (inl TypeError, St (count_load (session_over reader_ab)) [])
  ∧ (_internal_data_dict (session_over reader_ab) = ∅ →
     data_dict of_int64 numpy64 (St (session_over reader_ab) [])
     = (inl TypeError, St (count_load (session_over reader_ab)) [])).
Proof.
  apply (X1_float_length_refused of_int64 numpy64 (session_over reader_ab) [] 0 [1] 10%float).
  - reflexivity.
  - vm_compute. reflexivity.
Defined.



(** X6 (witness): the plan of [reader_zero_downsample]. *)
Lemma X6_zero_downsample_witness :
  allocate_data_dict numpy64 (St (session_over reader_zero_downsample) [])
  = (inl ZeroDivisionError, St (session_over reader_zero_downsample) [])
  ∧ load_data_dict of_int64 numpy64 (St (session_over reader_zero_downsample) [])
    = (inl ZeroDivisionError, St (count_load (session_over reader_zero_downsample)) [])
  ∧ (_internal_data_dict (session_over reader_zero_downsample) = ∅ →
     data_dict of_int64 numpy64 (St (session_over reader_zero_downsample) [])
     = (inl ZeroDivisionError, St (count_load (session_over reader_zero_downsample)) [])
     ∧ ∀ chans chn,
         channels_to_read (read (session_over reader_zero_downsample)) = Channels chans →
         chn ∈ chans →
         channel of_int64 numpy64 chn (St (session_over reader_zero_downsample) [])
         = (inl ZeroDivisionError, St (count_load (session_over reader_zero_downsample)) [])).
Proof.
  apply (X6_zero_downsample of_int64 numpy64 (session_over reader_zero_downsample) []).
  reflexivity.
Defined.



(** X10 (witness): [{"start_time": 0.0015, "channels_to_read": 5}]
    beside [{"start_time": 0.0015, "channels_to_read": [5]}]. *)
Lemma X10_scalar_channel_as_list_witness :
  let listed := <["channels_to_read" := VList [VInt 5]]> settings_scalar in
  let run := define_read_settings known_keys hdr1000 (VDict 0%nat) 1%nat
               (St (session_heap hdr1000 settings_scalar) []) in
  let run' := define_read_settings known_keys hdr1000 (VDict 0%nat) 1%nat
                (St (<[0%nat := listed]> (session_heap hdr1000 settings_scalar)) []) in
  run'.1 = run.1
  ∧ stdout run'.2 = stdout run.2
  ∧ ∀ l, run.1 = inr l → obj run'.2 !! l = obj run.2 !! l.
Proof.
  apply (X10_scalar_channel_as_list hdr1000 (session_heap hdr1000 settings_scalar) []
           0%nat 1%nat settings_scalar (default_settings_of hdr1000) 5).
  - reflexivity.
  - reflexivity.
  - discriminate.
  - reflexivity.
Defined.

(** X11 (witness): the settings [settings_all] on a 1000 Hz file. *)
Lemma X11_all_known_keys_refused_witness :
  let warning :=
    Message "Keys {} are not known.  Available settings are {}"
            [FKeys []; FKeys known_keys] in
  define_read_settings known_keys hdr1000 (VDict 0%nat) 1%nat
    (St (session_heap hdr1000 settings_all) [])
  = (inl (DigReadSettingError warning),
     St (session_heap hdr1000 settings_all) ([] ++ [warning])).
Proof.
  apply (X11_all_known_keys_refused hdr1000 (session_heap hdr1000 settings_all) []
           0%nat 1%nat settings_all).
  - reflexivity.
  - refine (bool_decide_unpack _ _). vm_compute. exact I.
Defined.

(** X12 (witness): the empty settings on a 1000 Hz file. *)
Lemma X12_no_settings_default_plan_witness :
  ∃ d l,
    init_read_settings hdr1000 (VDict 0%nat) (St (<[0%nat := ∅]> ∅) [])
    = (inr l,
       St (<[l := default_settings_of hdr1000]>
             (<[d := default_settings_of hdr1000]> (<[0%nat := ∅]> ∅))) [])
    ∧ l ≠ d ∧ (<[0%nat := ∅]> ∅ : heap float) !! d = None
    ∧ (<[0%nat := ∅]> ∅ : heap float) !! l = None.
Proof.
  apply (X12_no_settings_default_plan hdr1000 (<[0%nat := ∅]> ∅) [] 0%nat).
  reflexivity.
Defined.

(** X13 (witness): the settings [settings_plan] on a 1000 Hz file. *)
Lemma X13_full_plan_taken_as_is_witness :
  define_read_settings known_keys hdr1000 (VDict 0%nat) 1%nat
    (St (session_heap hdr1000 settings_plan) [])
  = (inr (fresh (dom (session_heap hdr1000 settings_plan))),
     St (<[fresh (dom (session_heap hdr1000 settings_plan)) := settings_plan]>
           (session_heap hdr1000 settings_plan)) []).
Proof.
  apply (X13_full_plan_taken_as_is hdr1000 (session_heap hdr1000 settings_plan) []
           0%nat 1%nat settings_plan).
  - reflexivity.
  - reflexivity.
  - refine (bool_decide_unpack _ _). vm_compute. exact I.
  - intros n H. vm_compute in H. discriminate H.
Defined.

(** X17 (witness): [{"start_time": 0.0015, "channels_to_read": 5}] on a
    1000 Hz file, and the plan it resolves to. *)
Lemma X17_resolved_plan_fixed_point_witness :
  ∃ l plan s',
    define_read_settings known_keys hdr1000 (VDict 0%nat) 1%nat
      (St (session_heap hdr1000 settings_scalar) []) = (inr l, s')
    ∧ obj s' !! l = Some plan
    ∧ ∃ l', define_read_settings known_keys hdr1000 (VDict l) 1%nat s'
            = (inr l', St (<[l' := plan]> (obj s')) (stdout s'))
            ∧ l' ≠ l.
Proof.
  apply (X17_resolved_plan_fixed_point hdr1000 (session_heap hdr1000 settings_scalar) []
           0%nat 1%nat settings_scalar).
  - reflexivity.
  - reflexivity.
  - refine (bool_decide_unpack _ _). vm_compute. exact I.
  - intros p. split.
    + intros [Hc Hr]. apply elem_of_dom in Hr as [v Hv].
      destruct p; vm_compute in Hv; discriminate Hv.
    + intros v Hv.
      destruct p; vm_compute in Hv; try discriminate Hv.
      injection Hv as <-. exists 2. vm_compute. reflexivity.
Defined.
